(** * Scholarship tracker: the record store, the run pipeline and its
      configuration checks, embedded from [scholarship_tracker.py].

    The development follows the layout of the Python module:

    - [Hashlib]: the MD5 digest that [Database.add_scholarship] uses to
      derive a row id ([hashlib.md5(...).hexdigest()]);
    - [Clock]: naive calendar datetimes, Python's [isoformat] and SQLite's
      [datetime('now', '-7 days')] text;
    - [Database]: the [scholarships] table and the methods of the class;
    - [Str]: the Python string methods the pipeline calls;
    - [Run]: exceptions, the log, and the functions of the pipeline
      ([fetch_*], [process_with_gemini], [send_email], [main]) over an
      explicit record of what the outside world answers.

    Definitions come first; the properties proved about them follow. *)

From Stdlib Require Import ZArith List String Ascii Bool Lia Arith.
Import ListNotations.

Local Open Scope string_scope.
Local Open Scope list_scope.
Local Open Scope Z_scope.

(* ===================================================================== *)
(** ** MD5, as computed by [hashlib.md5(data).hexdigest()] *)
(* ===================================================================== *)

Module Hashlib.

(** 32-bit words are kept in [Z], reduced modulo [2^32] after every
    operation that can overflow. *)
Definition wrap32 (x : Z) : Z := x mod 4294967296.

Definition not32 (x : Z) : Z := Z.lxor x 4294967295.

Definition rotl32 (x n : Z) : Z :=
  wrap32 (Z.lor (Z.shiftl x n) (Z.shiftr x (32 - n))).

Definition add32 (x y : Z) : Z := wrap32 (x + y).

(** The table of sines, [floor (2^32 * |sin (i + 1)|)]. *)
Definition K : list Z :=
  [ 3614090360; 3905402710; 606105819; 3250441966;
    4118548399; 1200080426; 2821735955; 4249261313;
    1770035416; 2336552879; 4294925233; 2304563134;
    1804603682; 4254626195; 2792965006; 1236535329;
    4129170786; 3225465664; 643717713; 3921069994;
    3593408605; 38016083; 3634488961; 3889429448;
    568446438; 3275163606; 4107603335; 1163531501;
    2850285829; 4243563512; 1735328473; 2368359562;
    4294588738; 2272392833; 1839030562; 4259657740;
    2763975236; 1272893353; 4139469664; 3200236656;
    681279174; 3936430074; 3572445317; 76029189;
    3654602809; 3873151461; 530742520; 3299628645;
    4096336452; 1126891415; 2878612391; 4237533241;
    1700485571; 2399980690; 4293915773; 2240044497;
    1873313359; 4264355552; 2734768916; 1309151649;
    4149444226; 3174756917; 718787259; 3951481745 ].

(** Per-round left rotations. *)
Definition S : list Z :=
  [ 7; 12; 17; 22; 7; 12; 17; 22; 7; 12; 17; 22; 7; 12; 17; 22;
    5; 9; 14; 20; 5; 9; 14; 20; 5; 9; 14; 20; 5; 9; 14; 20;
    4; 11; 16; 23; 4; 11; 16; 23; 4; 11; 16; 23; 4; 11; 16; 23;
    6; 10; 15; 21; 6; 10; 15; 21; 6; 10; 15; 21; 6; 10; 15; 21 ].

Definition bytes_of_string (s : string) : list Z :=
  map (fun c => Z.of_N (N_of_ascii c)) (list_ascii_of_string s).

(** Little-endian bytes of the low [n] bytes of [x]. *)
Fixpoint le_bytes (n : nat) (x : Z) : list Z :=
  match n with
  | O => []
  | Datatypes.S n' => (x mod 256) :: le_bytes n' (x / 256)
  end.

(** Message padding: a [0x80] byte, zeros up to 56 modulo 64, then the
    bit length on 64 bits. *)
Definition pad (msg : list Z) : list Z :=
  let len := Z.of_nat (List.length msg) in
  msg ++ [128] ++ repeat 0 (Z.to_nat ((55 - len) mod 64))
      ++ le_bytes 8 ((8 * len) mod 18446744073709551616).

Definition word_at (block : list Z) (g : nat) : Z :=
  nth (4 * g) block 0
  + 256 * nth (4 * g + 1) block 0
  + 65536 * nth (4 * g + 2) block 0
  + 16777216 * nth (4 * g + 3) block 0.

Record state := mkState { sA : Z; sB : Z; sC : Z; sD : Z }.

Definition init : state :=
  mkState 1732584193 4023233417 2562383102 271733878.

Definition round (block : list Z) (st : state) (i : nat) : state :=
  let '(mkState a b c d) := st in
  let '(f, g) :=
    if (i <? 16)%nat then
      (Z.lor (Z.land b c) (Z.land (not32 b) d), i)
    else if (i <? 32)%nat then
      (Z.lor (Z.land d b) (Z.land (not32 d) c), ((5 * i + 1) mod 16)%nat)
    else if (i <? 48)%nat then
      (Z.lxor (Z.lxor b c) d, ((3 * i + 5) mod 16)%nat)
    else
      (Z.lxor c (Z.lor b (not32 d)), ((7 * i) mod 16)%nat) in
  let f' := add32 (add32 (add32 f a) (nth i K 0)) (word_at block g) in
  mkState d (add32 b (rotl32 f' (nth i S 0))) b c.

Definition compress (st : state) (block : list Z) : state :=
  let st' := fold_left (round block) (seq 0 64) st in
  mkState (add32 (sA st) (sA st')) (add32 (sB st) (sB st'))
          (add32 (sC st) (sC st')) (add32 (sD st) (sD st')).

Fixpoint blocks (n : nat) (l : list Z) : list (list Z) :=
  match n with
  | O => []
  | Datatypes.S n' => firstn 64 l :: blocks n' (skipn 64 l)
  end.

Definition digest (msg : list Z) : list Z :=
  let p := pad msg in
  let st := fold_left compress (blocks (List.length p / 64) p) init in
  le_bytes 4 (sA st) ++ le_bytes 4 (sB st)
    ++ le_bytes 4 (sC st) ++ le_bytes 4 (sD st).

Definition hex_digit (x : Z) : ascii :=
  if x <? 10 then ascii_of_N (Z.to_N (48 + x))
  else ascii_of_N (Z.to_N (87 + x)).

Fixpoint hex (l : list Z) : string :=
  match l with
  | [] => EmptyString
  | b :: l' => String (hex_digit (b / 16)) (String (hex_digit (b mod 16)) (hex l'))
  end.

(** [hashlib.md5(s.encode()).hexdigest()]; a Python [str] is represented
    by the bytes of its UTF-8 encoding, so [encode] is the identity and
    concatenating two strings concatenates their encodings. *)
Definition md5_hexdigest (s : string) : string :=
  hex (digest (bytes_of_string s)).

End Hashlib.

(* ===================================================================== *)
(** ** Calendar time and its two text renderings *)
(* ===================================================================== *)

Module Clock.

(** A naive datetime, as [datetime.now()] returns it and as SQLite's
    ['now'] denotes it. *)
Record datetime := mkDatetime {
  year : Z; month : Z; day : Z;
  hour : Z; minute : Z; second : Z; microsecond : Z
}.

Definition is_leap (y : Z) : bool :=
  (y mod 4 =? 0) && (negb (y mod 100 =? 0) || (y mod 400 =? 0)).

Definition days_in_month (y m : Z) : Z :=
  if m =? 2 then (if is_leap y then 29 else 28)
  else if (m =? 4) || (m =? 6) || (m =? 9) || (m =? 11) then 30
  else 31.

(** The datetimes both libraries can print on four year digits. *)
Definition valid (dt : datetime) : bool :=
  (1 <=? year dt) && (year dt <=? 9999)
  && (1 <=? month dt) && (month dt <=? 12)
  && (1 <=? day dt) && (day dt <=? days_in_month (year dt) (month dt))
  && (0 <=? hour dt) && (hour dt <? 24)
  && (0 <=? minute dt) && (minute dt <? 60)
  && (0 <=? second dt) && (second dt <? 60)
  && (0 <=? microsecond dt) && (microsecond dt <? 1000000).

(** One calendar day earlier, same time of day. *)
Definition prev_day (dt : datetime) : datetime :=
  let '(mkDatetime y m d h mi s us) := dt in
  if 1 <? d then mkDatetime y m (d - 1) h mi s us
  else if 1 <? m then mkDatetime y (m - 1) (days_in_month y (m - 1)) h mi s us
  else mkDatetime (y - 1) 12 31 h mi s us.

(** [dt - timedelta(days=n)], and SQLite's ['-n days'] modifier. *)
Definition minus_days (n : nat) (dt : datetime) : datetime :=
  Nat.iter n prev_day dt.

(** Chronological order, field by field. *)
Definition lex (c1 c2 : comparison) : comparison :=
  match c1 with Eq => c2 | _ => c1 end.

Definition compare_date (a b : datetime) : comparison :=
  lex (year a ?= year b) (lex (month a ?= month b) (day a ?= day b)).

Definition compare (a b : datetime) : comparison :=
  lex (compare_date a b)
    (lex (hour a ?= hour b)
       (lex (minute a ?= minute b)
          (lex (second a ?= second b) (microsecond a ?= microsecond b)))).

Definition ltb (a b : datetime) : bool :=
  match compare a b with Lt => true | _ => false end.

Definition leb (a b : datetime) : bool :=
  match compare a b with Gt => false | _ => true end.

(** Zero-padded decimal fields. *)
Definition digit (n : Z) : ascii := ascii_of_N (Z.to_N (48 + n mod 10)).

Definition pad2 (n : Z) (k : string) : string :=
  String (digit (n / 10)) (String (digit n) k).

Definition pad4 (n : Z) (k : string) : string :=
  String (digit (n / 1000)) (String (digit (n / 100)) (pad2 n k)).

Definition pad6 (n : Z) (k : string) : string :=
  String (digit (n / 100000)) (String (digit (n / 10000)) (pad4 n k)).

Definition fmt_date (dt : datetime) (k : string) : string :=
  pad4 (year dt) (String "-" (pad2 (month dt) (String "-" (pad2 (day dt) k)))).

Definition fmt_time (dt : datetime) (k : string) : string :=
  pad2 (hour dt) (String ":" (pad2 (minute dt) (String ":" (pad2 (second dt) k)))).

(** [datetime.isoformat()]: ['YYYY-MM-DDTHH:MM:SS.ffffff'], the fraction
    left out when the microsecond is 0. *)
Definition isoformat (dt : datetime) : string :=
  fmt_date dt (String "T" (fmt_time dt
    (if microsecond dt =? 0 then "" else String "." (pad6 (microsecond dt) "")))).

(** The text SQLite's [datetime(...)] returns: ['YYYY-MM-DD HH:MM:SS']. *)
Definition sqlite_datetime (dt : datetime) : string :=
  fmt_date dt (String " " (fmt_time dt "")).

(** The part of [valid] that the date text depends on. *)
Definition printable (dt : datetime) : Prop :=
  0 <= year dt < 10000 /\ 0 <= month dt < 100 /\ 0 <= day dt < 100.

(** A day that exists in its month. *)
Definition date_ok (dt : datetime) : Prop :=
  1 <= month dt <= 12 /\ 1 <= day dt <= days_in_month (year dt) (month dt).

End Clock.

(* ===================================================================== *)
(** ** The record store: [ScholarshipData] and [Database] *)
(* ===================================================================== *)

(** [class ScholarshipData]; [timestamp] is the text
    [datetime.now().isoformat()] taken when the object is built. *)
Record ScholarshipData := mkScholarshipData {
  title : string;
  description : string;
  source : string;
  url : string;
  amount : option string;
  deadline : option string;
  timestamp : string
}.

(** [ScholarshipData(...)] called at the moment [now]. *)
Definition new_ScholarshipData (now : Clock.datetime)
    (title description source url : string) (amount deadline : option string)
  : ScholarshipData :=
  mkScholarshipData title description source url amount deadline
                    (Clock.isoformat now).

Module Database.

(** One row of the table [scholarships]. *)
Record row := mkRow {
  id : string;
  row_title : string;
  row_description : string;
  row_source : string;
  row_url : string;
  row_amount : option string;
  row_deadline : option string;
  row_timestamp : string;
  sent_in_email : bool
}.

(** The table in rowid order, which is the order a full scan returns. *)
Definition table := list row.

(** [create_tables] on a fresh file. *)
Definition create_tables : table := [].

Definition has_id (i : string) (t : table) : bool :=
  existsb (fun r => String.eqb (id r) i) t.

Definition delete_id (i : string) (t : table) : table :=
  filter (fun r => negb (String.eqb (id r) i)) t.

(** SQLite's conflict clause for a violated [PRIMARY KEY]. *)
Inductive on_conflict := ABORT | REPLACE.

(** [INSERT [OR REPLACE] INTO scholarships ...]: [None] stands for
    [sqlite3.IntegrityError].  With [OR REPLACE] the row that holds the
    key is deleted before the new one is inserted. *)
Definition insert (c : on_conflict) (r : row) (t : table) : option table :=
  if has_id (id r) t then
    match c with
    | ABORT => None
    | REPLACE => Some (delete_id (id r) t ++ [r])
    end
  else Some (t ++ [r]).

(** The id derivation of [add_scholarship]:
    [hashlib.md5(f"{title}{source}".encode()).hexdigest()]. *)
Definition scholarship_id (title source : string) : string :=
  Hashlib.md5_hexdigest (title ++ source)%string.

(** The row [add_scholarship] writes: the statement names eight columns,
    so [sent_in_email] takes its declared [DEFAULT FALSE]. *)
Definition row_of (s : ScholarshipData) : row :=
  mkRow (scholarship_id (title s) (source s))
        (title s) (description s) (source s) (url s)
        (amount s) (deadline s) (timestamp s)
        false.

Definition add_scholarship (s : ScholarshipData) (t : table) : option table :=
  insert REPLACE (row_of s) t.

Definition set_sent (r : row) : row :=
  mkRow (id r) (row_title r) (row_description r) (row_source r) (row_url r)
        (row_amount r) (row_deadline r) (row_timestamp r) true.

(** [UPDATE scholarships SET sent_in_email = TRUE WHERE id = ?]. *)
Definition update_sent (i : string) (t : table) : table :=
  map (fun r => if String.eqb (id r) i then set_sent r else r) t.

(** [executemany] runs the statement once per id, in order. *)
Definition mark_as_sent (scholarship_ids : list string) (t : table) : table :=
  fold_left (fun acc i => update_sent i acc) scholarship_ids t.

(** The text the query compares against: [datetime('now', '-7 days')]. *)
Definition cutoff (now : Clock.datetime) : string :=
  Clock.sqlite_datetime (Clock.minus_days 7 now).

(** [SELECT * ... WHERE sent_in_email = FALSE AND timestamp >
    datetime('now', '-7 days')].  The stored timestamps are [isoformat]
    texts and the right-hand side is SQLite's datetime text; neither
    reads as a number, so SQLite compares them byte by byte. *)
Definition get_unsent_scholarships (now : Clock.datetime) (t : table) : list row :=
  filter (fun r => negb (sent_in_email r) && String.ltb (cutoff now) (row_timestamp r)) t.


(** Calls on one connection, and the store each one leaves behind. *)
Inductive call :=
| AddScholarship (s : ScholarshipData)
| MarkAsSent (scholarship_ids : list string)
| GetUnsentScholarships (now : Clock.datetime).

(** The value a call hands back to Python. *)
Inductive answer :=
| Done
| Rows (rows : list row)
| IntegrityError.

Definition exec (c : call) (t : table) : answer * table :=
  match c with
  | AddScholarship s =>
      match add_scholarship s t with
      | Some t' => (Done, t')
      | None => (IntegrityError, t)
      end
  | MarkAsSent ids => (Done, mark_as_sent ids t)
  | GetUnsentScholarships now => (Rows (get_unsent_scholarships now t), t)
  end.

Fixpoint exec_all (cs : list call) (t : table) : list answer * table :=
  match cs with
  | [] => ([], t)
  | c :: cs' =>
      let '(a, t') := exec c t in
      let '(answers, t'') := exec_all cs' t' in
      (a :: answers, t'')
  end.

(** The [PRIMARY KEY] constraint. *)
Definition unique_ids (t : table) : Prop := NoDup (map id t).

Definition rows_with_id (i : string) (t : table) : list row :=
  filter (fun r => String.eqb (id r) i) t.

(** [r]'s id is one of [ids]. *)
Definition listed (ids : list string) (r : row) : bool :=
  existsb (String.eqb (id r)) ids.

(** The columns of a row other than [sent_in_email]. *)
Definition other_columns (r : row) :=
  (id r, row_title r, row_description r, row_source r, row_url r,
   row_amount r, row_deadline r, row_timestamp r).






End Database.

(** The catalog entry used in the examples. *)
Definition pmrf (stamp : string) : ScholarshipData :=
  mkScholarshipData "Prime Minister's Research Fellowship (PMRF)"
    "Direct admission to PhD programs" "Government of India"
    "https://pmrf.in/" (Some "Rs. 70,000-80,000 per month")
    (Some "February 28, 2025") stamp.

(* ===================================================================== *)
(** ** Python string methods used by the pipeline *)
(* ===================================================================== *)

Module Str.

(** A Python [str] is held as the bytes of its UTF-8 encoding, so the
    characters [str.isspace] accepts (the same ones [strip] and [split]
    treat as blanks) are recognised by their encodings.  On one byte:
    U+0009..U+000D, U+001C..U+001F and U+0020. *)
Definition space1 (c : ascii) : bool :=
  let n := N_of_ascii c in
  ((9 <=? n) && (n <=? 13) || (28 <=? n) && (n <=? 32))%N.

(** On two bytes: U+0085 ([C2 85]) and U+00A0 ([C2 A0]). *)
Definition space2 (c1 c2 : ascii) : bool :=
  let n1 := N_of_ascii c1 in
  let n2 := N_of_ascii c2 in
  ((n1 =? 194) && ((n2 =? 133) || (n2 =? 160)))%N.

(** On three bytes: U+1680 ([E1 9A 80]), U+2000..U+200A ([E2 80 80] to
    [E2 80 8A]), U+2028, U+2029, U+202F ([E2 80 A8], [E2 80 A9],
    [E2 80 AF]), U+205F ([E2 81 9F]) and U+3000 ([E3 80 80]). *)
Definition space3 (c1 c2 c3 : ascii) : bool :=
  let n1 := N_of_ascii c1 in
  let n2 := N_of_ascii c2 in
  let n3 := N_of_ascii c3 in
  ((n1 =? 225) && (n2 =? 154) && (n3 =? 128)
   || (n1 =? 226) && (n2 =? 128)
      && ((128 <=? n3) && (n3 <=? 138) || (n3 =? 168) || (n3 =? 169) || (n3 =? 175))
   || (n1 =? 226) && (n2 =? 129) && (n3 =? 159)
   || (n1 =? 227) && (n2 =? 128) && (n3 =? 128))%N.

(** A text read from the left: a blank character with its one, two or
    three bytes, or one byte of anything else. *)
Inductive token :=
| Blank1 (c1 : ascii)
| Blank2 (c1 c2 : ascii)
| Blank3 (c1 c2 c3 : ascii)
| Other (c : ascii).

Fixpoint tokens (s : string) : list token :=
  match s with
  | EmptyString => []
  | String c1 s1 =>
      if space1 c1 then Blank1 c1 :: tokens s1
      else
        match s1 with
        | String c2 s2 =>
            if space2 c1 c2 then Blank2 c1 c2 :: tokens s2
            else
              match s2 with
              | String c3 s3 =>
                  if space3 c1 c2 c3 then Blank3 c1 c2 c3 :: tokens s3
                  else Other c1 :: tokens s1
              | EmptyString => Other c1 :: tokens s1
              end
        | EmptyString => Other c1 :: tokens s1
        end
  end.

Definition is_blank (t : token) : bool :=
  match t with
  | Other _ => false
  | _ => true
  end.

(** The bytes of a token, in front of [k]. *)
Definition token_text (t : token) (k : string) : string :=
  match t with
  | Blank1 c1 => String c1 k
  | Blank2 c1 c2 => String c1 (String c2 k)
  | Blank3 c1 c2 c3 => String c1 (String c2 (String c3 k))
  | Other c => String c k
  end.

Fixpoint text_of (l : list token) : string :=
  match l with
  | [] => EmptyString
  | t :: l' => token_text t (text_of l')
  end.

(** Without the blanks in front. *)
Fixpoint drop_blanks (l : list token) : list token :=
  match l with
  | [] => []
  | t :: l' => if is_blank t then drop_blanks l' else l
  end.

(** Without the blanks at both ends. *)
Definition trim (l : list token) : list token :=
  rev (drop_blanks (rev (drop_blanks l))).

Definition lstrip (s : string) : string := text_of (drop_blanks (tokens s)).

Definition rstrip (s : string) : string :=
  text_of (rev (drop_blanks (rev (tokens s)))).

(** [s.strip()]. *)
Definition strip (s : string) : string := text_of (trim (tokens s)).

(** [s.split()]: the maximal runs of characters that are no blanks.
    [cur] is the run being read, reversed. *)
Fixpoint split_aux (cur : list ascii) (l : list token) : list string :=
  let flush := match cur with
               | [] => []
               | _ => [string_of_list_ascii (rev cur)]
               end in
  match l with
  | [] => flush
  | Other c :: l' => split_aux (c :: cur) l'
  | _ :: l' => flush ++ split_aux [] l'
  end.

Definition split (s : string) : list string := split_aux [] (tokens s).

(** [sep.join(parts)]. *)
Definition join (sep : string) (parts : list string) : string :=
  String.concat sep parts.

(** [s.lower()] on the ASCII range. *)
Definition lower_char (c : ascii) : ascii :=
  let n := N_of_ascii c in
  if ((65 <=? n) && (n <=? 90))%N then ascii_of_N (n + 32) else c.

Fixpoint lower (s : string) : string :=
  match s with
  | EmptyString => EmptyString
  | String c s' => String (lower_char c) (lower s')
  end.

(** [needle in s]. *)
Fixpoint contains (needle s : string) : bool :=
  String.prefix needle s
  || match s with
     | EmptyString => false
     | String _ s' => contains needle s'
     end.

(** [str(n)] for a non-negative count. *)
Fixpoint of_nat_aux (fuel : nat) (n : nat) (k : string) : string :=
  match fuel with
  | O => k
  | Datatypes.S fuel' =>
      let k' := String (ascii_of_nat (48 + n mod 10)) k in
      match (n / 10)%nat with
      | O => k'
      | q => of_nat_aux fuel' q k'
      end
  end.

Definition of_nat (n : nat) : string := of_nat_aux (Datatypes.S n) n EmptyString.

(** Truth value of an [Optional[str]]: [None] and [''] are false. *)
Definition truthy (v : option string) : bool :=
  match v with
  | None => false
  | Some s => negb (String.eqb s "")
  end.

End Str.

(* ===================================================================== *)
(** ** Exceptions, the log and the outside world *)
(* ===================================================================== *)

Module Run.

(** A raised instance of a subclass of [Exception]: its class and
    [str(e)]. *)
Record exn := mkExn { exn_class : string; exn_str : string }.

Definition ValueError (msg : string) : exn := mkExn "ValueError" msg.
Definition TypeError (msg : string) : exn := mkExn "TypeError" msg.
Definition KeyError (key : string) : exn :=
  mkExn "KeyError" ("'" ++ key ++ "'")%string.
Definition AttributeError (msg : string) : exn := mkExn "AttributeError" msg.

(** [x.get] on a value whose type has no such method; [str(e)] names the
    type, as in ['str' object has no attribute 'get']. *)
Definition no_attribute_get (type_name : string) : exn :=
  AttributeError ("'" ++ type_name ++ "' object has no attribute 'get'")%string.

Inductive level := INFO | WARNING | ERROR.

(** What a run does that can be seen from outside. *)
Inductive event :=
| Log (lvl : level) (msg : string)        (* logging.info / warning / error *)
| SendEmail (content : string)            (* entry into send_email(content) *)
| MailSend (recipient content : string).  (* mail.Send() went through *)

(** A computation: the events it produced, and the exception it raised
    or the value it returned. *)
Definition M (A : Type) : Type := (list event * (exn + A))%type.

Definition ret {A : Type} (a : A) : M A := ([], inr a).

Definition raise {A : Type} (e : exn) : M A := ([], inl e).

Definition bind {A B : Type} (m : M A) (f : A -> M B) : M B :=
  match m with
  | (tr, inl e) => (tr, inl e)
  | (tr, inr a) => let '(tr', r) := f a in (tr ++ tr', r)
  end.

(** [try: body / except Exception as e: handler e]. *)
Definition try_except {A : Type} (body : M A) (handler : exn -> M A) : M A :=
  match body with
  | (tr, inl e) => let '(tr', r) := handler e in (tr ++ tr', r)
  | (tr, inr a) => (tr, inr a)
  end.

(** The outcome of a call into a library. *)
Definition call {A : Type} (r : exn + A) : M A := ([], r).

Definition emit (ev : event) : M unit := ([ev], inr tt).

Definition logging_info (msg : string) : M unit := emit (Log INFO msg).
Definition logging_warning (msg : string) : M unit := emit (Log WARNING msg).
Definition logging_error (msg : string) : M unit := emit (Log ERROR msg).

Fixpoint for_each {A : Type} (f : A -> M unit) (l : list A) : M unit :=
  match l with
  | [] => ret tt
  | x :: l' => bind (f x) (fun _ => for_each f l')
  end.

Definition events {A : Type} (m : M A) : list event := fst m.
Definition outcome {A : Type} (m : M A) : exn + A := snd m.

Declare Scope run_scope.
Delimit Scope run_scope with run.
Notation "x <- m ;; k" := (bind m (fun x => k))
  (at level 61, m at next level, right associativity) : run_scope.
Notation "m ;; k" := (bind m (fun _ => k))
  (at level 61, right associativity) : run_scope.
Local Open Scope run_scope.

(** One entry of [SCHOLARSHIP_SOURCES]: a dict whose keys may be missing;
    reading a missing key raises [KeyError]. *)
Record config := mkConfig {
  cfg_url : option string;
  cfg_api_url : option string;
  cfg_params : option (list (string * list string));
  cfg_selectors : option (list (string * string))
}.

(** A parsed HTML element, seen through [select_one(selector)]: the call
    raises, finds nothing, or finds an element with this [.text]. *)
Definition element : Type := string -> exn + option string.

(** The JSON document the Buddy4Study API answers with, as far as the
    code reads it: an object whose ['scholarships'] is a list of objects
    with text fields.  Any other value has no [get] method; it is given
    by the name of its Python type ([str], [int], [list], [NoneType]). *)
Inductive json_item :=
| ItemDict (fields : list (string * string))
| ItemOther (type_name : string).

(** [DataDict None] is an object without the key.  A text or an object
    under ['scholarships'] is iterated as its characters or its keys, a
    list of [str] items; a number, a boolean or [null] there cannot be
    iterated ([DataDictScalar], with the name of the type). *)
Inductive json_data :=
| DataDict (scholarships : option (list json_item))
| DataDictScalar (type_name : string)
| DataOther (type_name : string).

(** What the outside world answers during one run. *)
Record world := mkWorld {
  (* os.getenv, after load_dotenv() *)
  getenv : string -> option string;
  (* datetime.now() *)
  clock : Clock.datetime;
  (* session.get(url, ...) then raise_for_status(): response.text *)
  http_get : string -> exn + string;
  (* BeautifulSoup(text, 'html.parser'), seen through soup.select(selector) *)
  beautiful_soup : string -> exn + (string -> exn + list element);
  (* session.post(url, json=params, ...), raise_for_status(), .json() *)
  http_post_json : string -> list (string * list string) -> exn + json_data;
  (* requests.head(url, timeout=5).status_code *)
  http_head : string -> exn + Z;
  (* datetime.strptime(text, "%B %d, %Y") does not raise ValueError *)
  strptime_ok : string -> bool;
  (* GenerativeModel('gemini-pro').generate_content(prompt).text *)
  generate_content : list ScholarshipData -> exn + string;
  (* Outlook: Dispatch, CreateItem, the fields, mail.Send() *)
  outlook_send : string -> string -> exn + unit
}.

Definition dq : string := String (ascii_of_nat 34) EmptyString.
Definition nl : string := String (ascii_of_nat 10) EmptyString.

(** The module-level list [AVAILABLE_SCHOLARSHIPS]; every entry is built
    when the module is loaded, at [now]. *)
Definition AVAILABLE_SCHOLARSHIPS (now : Clock.datetime) : list ScholarshipData :=
  [
    new_ScholarshipData now
      "Prime Minister's Research Fellowship (PMRF)"
      "Direct admission to PhD programs at IITs/IISc for students who have completed/are pursuing final year B.Tech/Integrated M.Tech/M.Sc. 
        Benefits: Fellowship of Rs.70,000-80,000 per month plus research grant of Rs.2 lakhs per year."
      "Government of India"
      "https://pmrf.in/"
      (Some "Rs. 70,000-80,000 per month + Research grant")
      (Some "February 28, 2025");
    new_ScholarshipData now
      "AICTE PG (GATE/GPAT) Scholarship"
      "For GATE/GPAT qualified students pursuing M.E./M.Tech/M.Arch and M.Pharma courses.
        Monthly stipend for 24 months or duration of course, whichever is less."
      "AICTE"
      "https://www.aicte-india.org/schemes/students-development-schemes/PG-Scholarship-Scheme"
      (Some "Rs. 12,400 per month")
      (Some "Ongoing");
    new_ScholarshipData now
      "National Overseas Scholarship"
      "For SC, ST, landless agricultural laborers and traditional artisans' children for pursuing Master's level courses and PhD abroad.
        Covers tuition fees, living expenses, travel, and more."
      "Ministry of Social Justice and Empowerment"
      "https://nosmsje.gov.in/"
      (Some "Full funding including tuition fees and living expenses")
      (Some "March 31, 2025");
    new_ScholarshipData now
      "Post Graduate Indira Gandhi Scholarship for Single Girl Child"
      "For single girl child to pursue non-professional PG courses. 
        Girl students up to the age of 30 years (as on 1st July of the year) can apply."
      "UGC"
      "https://www.ugc.ac.in/"
      (Some "Rs. 36,200 per annum")
      (Some "March 15, 2025");
    new_ScholarshipData now
      "Post Graduate Merit Scholarship for University Rank Holders"
      "For students who have secured first and second rank in undergraduate degree for pursuing post graduation.
        Valid for all streams except technical/professional courses."
      "UGC"
      "https://scholarships.gov.in"
      (Some "Rs. 3,100 per month for 2 years")
      (Some "February 28, 2025");
    new_ScholarshipData now
      "Kishore Vaigyanik Protsahan Yojana (KVPY)"
      "Fellowship program to encourage students to pursue research careers in Science.
        For students from Class 11 to 1st year of any UG Program."
      "Department of Science and Technology"
      "http://www.kvpy.iisc.ernet.in/"
      (Some "Rs. 5,000-7,000 per month + Summer Fellowship")
      (Some "Ongoing");
    new_ScholarshipData now
      "CSIR Junior Research Fellowship"
      "For pursuing PhD in Science, Engineering, Medicine, Agriculture, Pharmacy, and other related fields.
        Candidates must qualify CSIR-UGC NET for JRF."
      "CSIR"
      "https://csirhrdg.res.in/"
      (Some "Rs. 31,000 per month + HRA")
      (Some "June 2025 (Next cycle)")
  ].

(** The three literal fragments of [enhance_scholarship_content]. *)
Definition social_buttons : string :=
  ("
        <div class=" ++ dq ++ "social-share" ++ dq ++ ">
            <h3>Share this opportunity:</h3>
            <a href=" ++ dq ++ "#" ++ dq ++ " class=" ++ dq ++ "share-button" ++ dq ++ " onclick=" ++ dq ++ "window.open('https://wa.me/?text=' + encodeURIComponent(document.title + ' - Check this scholarship opportunity!'), '_blank')" ++ dq ++ ">
                Share on WhatsApp
            </a>
            <a href=" ++ dq ++ "#" ++ dq ++ " class=" ++ dq ++ "share-button" ++ dq ++ " onclick=" ++ dq ++ "window.open('https://telegram.me/share/url?url=' + encodeURIComponent(window.location.href), '_blank')" ++ dq ++ ">
                Share on Telegram
            </a>
        </div>
        ")%string.

Definition deadline_script : string :=
  "
        <script>
        function updateCountdown() {
            const deadlines = document.querySelectorAll('.deadline');
            deadlines.forEach(deadline => {
                const dateStr = deadline.getAttribute('data-date');
                if (dateStr && dateStr.toLowerCase() !== 'ongoing') {
                    const deadlineDate = new Date(dateStr);
                    const now = new Date();
                    const diff = deadlineDate - now;
                    const days = Math.floor(diff / (1000 * 60 * 60 * 24));
                    if (days > 0) {
                        deadline.innerHTML += ` (${days} days remaining)`;
                    }
                }
            });
        }
        updateCountdown();
        </script>
        ".

Definition print_style : string :=
  "
        <style>
        @media print {
            body { background: white; }
            .no-print { display: none; }
            .scholarship { break-inside: avoid; }
            a { text-decoration: underline; }
            .header { background: none; color: black; }
        }
        </style>
        ".
(** The module-level dict [SCHOLARSHIP_SOURCES], in insertion order. *)
Definition SCHOLARSHIP_SOURCES : list (string * config) :=
  [
    ("National Scholarship Portal",
     mkConfig (Some "https://scholarships.gov.in/")
       None
       None
       (Some [("scholarships", ".scholarship-item");
        ("title", ".scholarship-title");
        ("description", ".description");
        ("deadline", ".deadline");
        ("amount", ".amount")]));
    ("Buddy4Study",
     mkConfig (Some "https://www.buddy4study.com/scholarships/")
       (Some "https://www.buddy4study.com/api/scholarships/search")
       (Some [("level", ["Graduate"; "Post Graduate"]); ("type", ["National"; "International"])])
       None);
    ("AICTE",
     mkConfig (Some "https://www.aicte-india.org/schemes/students-development-schemes")
       None
       None
       (Some [("scholarships", ".schemes-item");
        ("title", ".scheme-title");
        ("description", ".scheme-description");
        ("deadline", ".scheme-deadline");
        ("amount", ".scheme-amount")]));
    ("UGC Scholarships",
     mkConfig (Some "https://www.ugc.ac.in/page/Scholarships-and-Fellowships.aspx")
       None
       None
       (Some [("scholarships", ".scholarship-list-item");
        ("title", ".title");
        ("description", ".description");
        ("deadline", ".deadline");
        ("amount", ".amount")]));
    ("DBT India",
     mkConfig (Some "http://dbtindia.gov.in/schemes-programmes/building-young-careers/scholarships")
       None
       None
       (Some [("scholarships", ".scholarship-item");
        ("title", ".title");
        ("description", ".content");
        ("deadline", ".deadline");
        ("amount", ".stipend")]))
  ].
(** [d[key]] and [d.get(key, default)] on a dict with string keys. *)
Fixpoint dict_find {V : Type} (key : string) (d : list (string * V)) : option V :=
  match d with
  | [] => None
  | (k, v) :: d' => if String.eqb k key then Some v else dict_find key d'
  end.

Definition subscript {V : Type} (d : option V) (key : string) : M V :=
  match d with
  | Some v => ret v
  | None => raise (KeyError key)
  end.

Definition dict_get (key default : string) (d : list (string * string)) : string :=
  match dict_find key d with
  | Some v => v
  | None => default
  end.

Definition get_available_scholarships (w : world) : list ScholarshipData :=
  AVAILABLE_SCHOLARSHIPS (clock w).

Definition clean_text (text : string) : string :=
  if String.eqb text "" then "" else Str.join " " (Str.split text).

Definition parse_deadline (deadline_text : string) : string :=
  Str.strip deadline_text.

Definition extract_text (item : element) (selector : string) : option string :=
  match item selector with
  | inr (Some text) => Some (Str.strip text)
  | inr None => None
  | inl _ => None
  end.

(** The [for item in data.get('scholarships', [])] loop of
    [fetch_buddy4study_scholarships]; [item.get] exists on dicts only, and
    the default [config['url']] is looked up for every item. *)
Fixpoint buddy4study_items (w : world) (cfg : config) (items : list json_item)
  : M (list ScholarshipData) :=
  match items with
  | [] => ret []
  | ItemOther type_name :: _ => raise (no_attribute_get type_name)
  | ItemDict item :: rest =>
      url <- subscript (cfg_url cfg) "url" ;;
      more <- buddy4study_items w cfg rest ;;
      ret (new_ScholarshipData (clock w)
             (dict_get "title" "" item)
             (dict_get "description" "" item)
             "Buddy4Study"
             (dict_get "apply_url" url item)
             (Some (dict_get "amount" "" item))
             (Some (dict_get "deadline" "" item))
           :: more)
  end.

(** The [try] block of [fetch_buddy4study_scholarships]. *)
Definition fetch_buddy4study_body (w : world) (cfg : config)
  : M (list ScholarshipData) :=
  api_url <- subscript (cfg_api_url cfg) "api_url" ;;
  params <- subscript (cfg_params cfg) "params" ;;
  data <- call (http_post_json w api_url params) ;;
  items <- match data with
           | DataDict (Some l) => ret l
           | DataDict None => ret []
           | DataDictScalar type_name =>
               raise (TypeError ("'" ++ type_name ++ "' object is not iterable"))
           | DataOther type_name => raise (no_attribute_get type_name)
           end ;;
  buddy4study_items w cfg items.

Definition fetch_buddy4study_scholarships (w : world) (cfg : config)
  : M (list ScholarshipData) :=
  try_except
    (fetch_buddy4study_body w cfg)
    (fun e =>
       logging_error ("Error fetching from Buddy4Study API: " ++ exn_str e)%string ;;
       ret []).

(** The body of the [for item in items] loop of [fetch_scholarship_data]. *)
Definition scrape_item (w : world) (source_name : string) (cfg : config)
    (selectors : list (string * string)) (item : element)
  : M (list ScholarshipData) :=
  sel_title <- subscript (dict_find "title" selectors) "title" ;;
  let title := extract_text item sel_title in
  sel_description <- subscript (dict_find "description" selectors) "description" ;;
  let description := extract_text item sel_description in
  sel_deadline <- subscript (dict_find "deadline" selectors) "deadline" ;;
  let deadline := extract_text item sel_deadline in
  sel_amount <- subscript (dict_find "amount" selectors) "amount" ;;
  let amount := extract_text item sel_amount in
  match title, description with
  | Some t, Some d =>
      if negb (String.eqb t "") && negb (String.eqb d "") then
        url <- subscript (cfg_url cfg) "url" ;;
        ret [new_ScholarshipData (clock w)
               (clean_text t) (clean_text d) source_name url
               (match amount with
                | Some a => if String.eqb a "" then None else Some (clean_text a)
                | None => None
                end)
               (match deadline with
                | Some dl => if String.eqb dl "" then None else Some (parse_deadline dl)
                | None => None
                end)]
      else ret []
  | _, _ => ret []
  end.

Fixpoint scrape_items (w : world) (source_name : string) (cfg : config)
    (selectors : list (string * string)) (items : list element)
  : M (list ScholarshipData) :=
  match items with
  | [] => ret []
  | item :: rest =>
      found <- scrape_item w source_name cfg selectors item ;;
      more <- scrape_items w source_name cfg selectors rest ;;
      ret (found ++ more)
  end.

(** The [try] block of [fetch_scholarship_data]. *)
Definition fetch_scholarship_data_body (w : world) (source_name : string)
    (cfg : config) : M (list ScholarshipData) :=
  scholarships <-
    (if String.eqb source_name "Buddy4Study" then
       fetch_buddy4study_scholarships w cfg
     else
       url <- subscript (cfg_url cfg) "url" ;;
       text <- call (http_get w url) ;;
       soup <- call (beautiful_soup w text) ;;
       selectors <- subscript (cfg_selectors cfg) "selectors" ;;
       sel <- subscript (dict_find "scholarships" selectors) "scholarships" ;;
       items <- call (soup sel) ;;
       scrape_items w source_name cfg selectors items) ;;
  logging_info ("Successfully fetched "
                ++ Str.of_nat (List.length scholarships)
                ++ " scholarships from " ++ source_name)%string ;;
  ret scholarships.

Definition fetch_scholarship_data (w : world) (source_name : string) (cfg : config)
  : M (list ScholarshipData) :=
  try_except
    (fetch_scholarship_data_body w source_name cfg)
    (fun e =>
       logging_error ("Error fetching data from " ++ source_name ++ ": "
                      ++ exn_str e)%string ;;
       ret []).

Definition sentinel : string :=
  "Error processing scholarship data. Please check the log for details.".

Definition process_with_gemini (w : world) (scholarships : list ScholarshipData)
  : M string :=
  try_except
    (call (generate_content w scholarships))
    (fun e =>
       logging_error ("Error processing with Gemini: " ++ exn_str e)%string ;;
       ret sentinel).

Definition send_email (w : world) (content : string) : M bool :=
  emit (SendEmail content) ;;
  try_except
    (let recipient_email :=
       match getenv w "RECIPIENT_EMAIL" with
       | Some r => r
       | None => "muskan7892gupta@gmail.com"
       end in
     call (outlook_send w recipient_email content) ;;
     emit (MailSend recipient_email content) ;;
     logging_info ("Email sent successfully to " ++ recipient_email)%string ;;
     ret true)
    (fun e =>
       logging_error ("Error sending email: " ++ exn_str e)%string ;;
       ret false).

(** The issues [test_scholarship_data] collects for one scholarship. *)
Definition scholarship_issues (w : world) (s : ScholarshipData) : list string :=
  (if String.eqb (title s) "" then
     [("Missing title in scholarship: " ++ source s)%string] else [])
  ++ (if String.eqb (description s) "" then
        [("Missing description in scholarship: " ++ title s)%string] else [])
  ++ (if String.eqb (url s) "" then
        [("Missing URL in scholarship: " ++ title s)%string] else [])
  ++ (match http_head w (url s) with
      | inr status_code =>
          if negb (status_code =? 200) then
            [("Invalid URL for scholarship: " ++ title s)%string] else []
      | inl e =>
          [("Error checking URL for " ++ title s ++ ": " ++ exn_str e)%string]
      end)
  ++ (match deadline s with
      | Some d =>
          if negb (String.eqb d "")
             && negb (String.eqb (Str.lower d) "ongoing")
             && negb (strptime_ok w d)
          then [("Invalid deadline format in scholarship: " ++ title s)%string]
          else []
      | None => []
      end)
  ++ (match amount s with
      | Some a =>
          if negb (String.eqb a "")
             && negb (existsb (fun currency => Str.contains currency (Str.lower a))
                        ["rs"; "inr"; "‚Çπ"])
          then [("Amount may be missing currency in scholarship: " ++ title s)%string]
          else []
      | None => []
      end).

Definition test_scholarship_data (w : world) : list string :=
  flat_map (scholarship_issues w) (get_available_scholarships w).

Definition validate_email_config (w : world) : list string :=
  flat_map
    (fun var =>
       if Str.truthy (getenv w var) then []
       else [("Missing " ++ var ++ " in environment configuration")%string])
    ["EMAIL_ADDRESS"; "RECIPIENT_EMAIL"].

Definition enhance_scholarship_content (content : string) : string :=
  (print_style ++ nl ++ content ++ nl ++ social_buttons ++ nl ++ deadline_script)%string.

Definition main (w : world) : M unit :=
  try_except
    (let email_issues := validate_email_config w in
     match email_issues with
     | _ :: _ => for_each logging_error email_issues
     | [] =>
         let data_issues := test_scholarship_data w in
         for_each logging_warning data_issues ;;
         let scholarships := get_available_scholarships w in
         match scholarships with
         | [] => logging_error "No scholarships available to process"
         | _ :: _ =>
             content <- process_with_gemini w scholarships ;;
             if String.eqb content "" then
               logging_error "Failed to generate content"
             else
               let enhanced_content := enhance_scholarship_content content in
               sent <- send_email w enhanced_content ;;
               if sent then
                 logging_info "Successfully processed and sent scholarship updates"
               else
                 logging_error "Failed to send email"
         end
     end)
    (fun e => logging_error ("Error in main: " ++ exn_str e)%string).

(** The statements the module runs when it is loaded, up to the
    configuration checks: each [raise] there is uncaught. *)
Definition module_init (w : world) : M unit :=
  let GOOGLE_API_KEY := getenv w "GOOGLE_API_KEY" in
  if negb (Str.truthy GOOGLE_API_KEY) then
    raise (ValueError "GOOGLE_API_KEY not found in environment variables")
  else
    let EMAIL_ADDRESS := getenv w "EMAIL_ADDRESS" in
    let EMAIL_PASSWORD := getenv w "EMAIL_PASSWORD" in
    let RECIPIENT_EMAIL := getenv w "RECIPIENT_EMAIL" in
    if negb (forallb Str.truthy [EMAIL_ADDRESS; EMAIL_PASSWORD; RECIPIENT_EMAIL]) then
      raise (ValueError "Email configuration incomplete in environment variables")
    else ret tt.

(** Running the file as a script: the module body, then
    [if __name__ == "__main__": main()]. *)
Definition script (w : world) : M unit :=
  module_init w ;; main w.

(** [process_scholarships]: the shorter pipeline, which mails the
    formatter's text as it is. *)
Definition process_scholarships (w : world) : M unit :=
  try_except
    (let scholarships := get_available_scholarships w in
     formatted_content <- process_with_gemini w scholarships ;;
     if String.eqb formatted_content "" then
       logging_error "No content generated for email"
     else
       send_email w formatted_content ;;
       logging_info "Successfully sent scholarship update email")
    (fun e =>
       logging_error ("Error in processing scholarships: " ++ exn_str e)%string).

End Run.

(* ===================================================================== *)
(** ** Worlds used in the examples *)
(* ===================================================================== *)

(** An environment in which the four configuration variables are set. *)
Definition env_ok (k : string) : option string :=
  if String.eqb k "GOOGLE_API_KEY" then Some "key"
  else if String.eqb k "EMAIL_ADDRESS" then Some "me@example.org"
  else if String.eqb k "EMAIL_PASSWORD" then Some "pw"
  else if String.eqb k "RECIPIENT_EMAIL" then Some "you@example.org"
  else None.

(** The deadlines of the catalog that [strptime] reads as a date. *)
Definition catalog_dates : list string :=
  ["February 28, 2025"; "March 31, 2025"; "March 15, 2025"].

(** A world whose scholarship sites refuse connections, whose URL checks
    answer 200, whose mail client works, and whose formatter answers
    [gemini]. *)
Definition quiet_world (env : string -> option string)
    (gemini : Run.exn + string) : Run.world :=
  Run.mkWorld env (Clock.mkDatetime 2025 1 8 12 0 0 0)
    (fun _ => inl (Run.mkExn "ConnectionError" "connection refused"))
    (fun _ => inr (fun _ => inr []))
    (fun _ _ => inl (Run.mkExn "ConnectionError" "connection refused"))
    (fun _ => inr 200)
    (fun d => existsb (String.eqb d) catalog_dates)
    (fun _ => gemini)
    (fun _ _ => inr tt).

Definition quota : Run.exn := Run.mkExn "ResourceExhausted" "quota exceeded".

(** The ["Buddy4Study"] entry of [SCHOLARSHIP_SOURCES]. *)
Definition buddy4study_config : Run.config :=
  Run.mkConfig (Some "https://www.buddy4study.com/scholarships/")
    (Some "https://www.buddy4study.com/api/scholarships/search")
    (Some [("level", ["Graduate"; "Post Graduate"]);
           ("type", ["National"; "International"])])
    None.

(* ===================================================================== *)
(** ** Predicates used to state the properties *)
(* ===================================================================== *)

(** Every character of [s] satisfies [p]. *)
Fixpoint all_chars (p : ascii -> bool) (s : string) : bool :=
  match s with
  | EmptyString => true
  | String c s' => p c && all_chars p s'
  end.

(** One of [0-9a-f]. *)
Definition is_lower_hex (c : ascii) : bool :=
  let n := N_of_ascii c in
  ((48 <=? n) && (n <=? 57) || (97 <=? n) && (n <=? 102))%N.

(** The first token of a text and what follows it. *)
Definition next (s : string) : option (Str.token * string) :=
  match s with
  | EmptyString => None
  | String c1 s1 =>
      if Str.space1 c1 then Some (Str.Blank1 c1, s1)
      else
        match s1 with
        | String c2 s2 =>
            if Str.space2 c1 c2 then Some (Str.Blank2 c1 c2, s2)
            else
              match s2 with
              | String c3 s3 =>
                  if Str.space3 c1 c2 c3 then Some (Str.Blank3 c1 c2 c3, s3)
                  else Some (Str.Other c1, s1)
              | EmptyString => Some (Str.Other c1, s1)
              end
        | EmptyString => Some (Str.Other c1, s1)
        end
  end.

(** A text with no blank character in it. *)
Definition solid (w : string) : Prop :=
  Str.tokens w = map Str.Other (list_ascii_of_string w).

(** A word as [split] yields them: not empty, no blank character in it. *)
Definition is_word (w : string) : Prop := w <> "" /\ solid w.

(** The token at an end of a text, if there is one, is no blank. *)
Definition edge_ok (l : list Str.token) : Prop :=
  match l with
  | t :: _ => Str.is_blank t = false
  | [] => True
  end.

(** Neither end of [s] is a blank character. *)
Definition trimmed (s : string) : Prop :=
  edge_ok (Str.tokens s) /\ edge_ok (rev (Str.tokens s)).

(** The address [send_email] writes to. *)
Definition recipient (w : Run.world) : string :=
  match Run.getenv w "RECIPIENT_EMAIL" with
  | Some r => r
  | None => "muskan7892gupta@gmail.com"
  end.

(** The four variables the module reads when it is loaded. *)
Definition required_vars : list string :=
  ["GOOGLE_API_KEY"; "EMAIL_ADDRESS"; "EMAIL_PASSWORD"; "RECIPIENT_EMAIL"].

(** The events of a run that hand something to the mail client. *)
Definition is_delivery (ev : Run.event) : bool :=
  match ev with
  | Run.SendEmail _ => true
  | Run.MailSend _ _ => true
  | Run.Log _ _ => false
  end.

(** The record the Buddy4Study loop builds from one JSON object. *)
Definition buddy4study_record (w : Run.world) (url : string)
    (item : list (string * string)) : ScholarshipData :=
  new_ScholarshipData (Run.clock w)
    (Run.dict_get "title" "" item) (Run.dict_get "description" "" item)
    "Buddy4Study"
    (Run.dict_get "apply_url" url item)
    (Some (Run.dict_get "amount" "" item))
    (Some (Run.dict_get "deadline" "" item)).

(** What holds of a record scraped from a page of [source_name]. *)
Definition well_scraped (source_name : string) (cfg : Run.config)
    (s : ScholarshipData) : Prop :=
  source s = source_name
  /\ Run.cfg_url cfg = Some (url s)
  /\ title s <> ""
  /\ description s <> ""
  /\ amount s <> Some ""
  /\ deadline s <> Some "".

(** The ["AICTE"] entry of [SCHOLARSHIP_SOURCES]. *)
Definition aicte_config : Run.config :=
  Run.mkConfig
    (Some "https://www.aicte-india.org/schemes/students-development-schemes")
    None None
    (Some [("scholarships", ".schemes-item");
           ("title", ".scheme-title");
           ("description", ".scheme-description");
           ("deadline", ".scheme-deadline");
           ("amount", ".scheme-amount")]).

(** A scheme as it stands on a page: blanks around the title, no amount,
    an empty deadline. *)
Definition pragati_element : Run.element :=
  fun selector =>
    if String.eqb selector ".scheme-title" then inr (Some "  Pragati   Scholarship ")
    else if String.eqb selector ".scheme-description"
         then inr (Some "For girl students in technical education.")
    else if String.eqb selector ".scheme-deadline" then inr (Some "   ")
    else inr None.

(** An element with a description and no title. *)
Definition untitled_element : Run.element :=
  fun selector =>
    if String.eqb selector ".scheme-description" then inr (Some "Details to follow.")
    else inr None.

(** A world whose pages hold these two elements. *)
Definition page_world : Run.world :=
  Run.mkWorld env_ok (Clock.mkDatetime 2025 1 8 12 0 0 0)
    (fun _ => inr "<html>...</html>")
    (fun _ => inr (fun _ => inr [pragati_element; untitled_element]))
    (fun _ _ => inr (Run.DataDict None))
    (fun _ => inr 200)
    (fun _ => true)
    (fun _ => inr "<p>digest</p>")
    (fun _ _ => inr tt).

(* ===================================================================== *)
(** * Properties *)
(* ===================================================================== *)

(** ** MD5 test vectors (RFC 1321, and a two-block message) *)

Example md5_empty :
  Hashlib.md5_hexdigest "" = "d41d8cd98f00b204e9800998ecf8427e".
Proof. vm_compute. reflexivity. Qed.

Example md5_abc :
  Hashlib.md5_hexdigest "abc" = "900150983cd24fb0d6963f7d28e17f72".
Proof. vm_compute. reflexivity. Qed.

Example md5_message_digest :
  Hashlib.md5_hexdigest "message digest" = "f96b697d7cb7938d525a2f31aaf161d0".
Proof. vm_compute. reflexivity. Qed.

Example md5_two_blocks :
  Hashlib.md5_hexdigest
    "abcabcabcabcabcabcabcabcabcabcabcabcabcabcabcabcabcabcabcabcabcabcabcabcabcabcabcabcabcabc"
  = "daa54284568d250dde2cc8578c2e116a".
Proof. vm_compute. reflexivity. Qed.

(** ** The record store *)

Section StoreFacts.

Import Database.

Implicit Types (t : table) (r : row) (i : string) (s : ScholarshipData).

Lemma has_id_In i t :
  has_id i t = true <-> In i (map id t).
Proof.
  unfold has_id. rewrite existsb_exists, in_map_iff. split.
  - intros (r & Hr & E). apply String.eqb_eq in E. now exists r.
  - intros (r & E & Hr). exists r. split; [assumption|]. now apply String.eqb_eq.
Qed.

Lemma delete_id_absent i t :
  has_id i t = false -> delete_id i t = t.
Proof.
  unfold has_id, delete_id. induction t as [|r t IH]; simpl; [reflexivity|].
  intros H. apply orb_false_iff in H as [H1 H2].
  rewrite H1. simpl. now rewrite IH.
Qed.

Lemma In_delete_id r i t :
  In r (delete_id i t) <-> In r t /\ id r <> i.
Proof.
  unfold delete_id. rewrite filter_In, negb_true_iff, String.eqb_neq. tauto.
Qed.

Lemma delete_id_removes i t : ~ In i (map id (delete_id i t)).
Proof.
  rewrite in_map_iff. intros (r & E & Hr).
  apply In_delete_id in Hr. tauto.
Qed.

(** Deleting rows keeps the remaining keys distinct. *)
Lemma unique_ids_delete i t :
  unique_ids t -> unique_ids (delete_id i t).
Proof.
  unfold unique_ids. induction t as [|r t IH]; intros Hu; [exact Hu|].
  apply NoDup_cons_iff in Hu as [Hfresh Hu].
  change (delete_id i (r :: t))
    with (if negb (String.eqb (id r) i) then r :: delete_id i t else delete_id i t).
  destruct (negb (String.eqb (id r) i)); [|now apply IH].
  cbn [map]. apply NoDup_cons; [|now apply IH].
  rewrite in_map_iff. intros (x & Ex & Hx).
  apply In_delete_id in Hx as [Hx _].
  apply Hfresh. rewrite <- Ex. now apply in_map.
Qed.

(** [INSERT OR REPLACE] written as one expression: it never fails. *)
Lemma insert_replace r t :
  insert REPLACE r t = Some (delete_id (id r) t ++ [r]).
Proof.
  unfold insert. destruct (has_id (id r) t) eqn:E; [reflexivity|].
  now rewrite delete_id_absent.
Qed.

Lemma add_scholarship_eq s t :
  add_scholarship s t = Some (delete_id (id (row_of s)) t ++ [row_of s]).
Proof. apply insert_replace. Qed.

Lemma unique_ids_replace r t :
  unique_ids t -> unique_ids (delete_id (id r) t ++ [r]).
Proof.
  unfold unique_ids. intros H. rewrite map_app. simpl.
  apply NoDup_app.
  - now apply unique_ids_delete.
  - repeat constructor. intros [].
  - intros x Hx [E|[]]. subst x. now apply delete_id_removes in Hx.
Qed.

Lemma rows_with_id_replace r t :
  rows_with_id (id r) (delete_id (id r) t ++ [r]) = [r].
Proof.
  unfold rows_with_id. rewrite filter_app. simpl. rewrite String.eqb_refl.
  replace (filter _ (delete_id (id r) t)) with (@nil row); [reflexivity|].
  symmetry. unfold delete_id. induction t as [|x t IH]; simpl; [reflexivity|].
  destruct (String.eqb (id x) (id r)) eqn:E; simpl; [assumption|].
  now rewrite E.
Qed.

(** A plain [INSERT] of a key that is present is the failure that
    [OR REPLACE] rules out. *)
Lemma insert_abort_conflict r t :
  has_id (id r) t = true -> insert ABORT r t = None.
Proof. unfold insert. now intros ->. Qed.

Lemma exec_add s t :
  exec (AddScholarship s) t = (Done, delete_id (id (row_of s)) t ++ [row_of s]).
Proof. simpl. now rewrite add_scholarship_eq. Qed.

Lemma exec_all_adds_unique (ss : list ScholarshipData) t :
  unique_ids t ->
  Forall (fun a => a = Done) (fst (exec_all (map AddScholarship ss) t))
  /\ unique_ids (snd (exec_all (map AddScholarship ss) t)).
Proof.
  revert t. induction ss as [|s ss IH]; intros t Ht.
  - simpl. split; [constructor | assumption].
  - cbn [map exec_all]. rewrite exec_add.
    specialize (IH _ (unique_ids_replace (row_of s) t Ht)).
    destruct (exec_all (map AddScholarship ss) _) as [answers t'].
    simpl in *. destruct IH as [IH1 IH2]. split; [constructor|]; auto.
Qed.

(** *** [mark_as_sent] *)

Lemma mark_as_sent_map (ids : list string) t :
  mark_as_sent ids t = map (fun r => if listed ids r then set_sent r else r) t.
Proof.
  unfold mark_as_sent. revert t. induction ids as [|i ids IH]; intros t; simpl.
  - unfold listed. simpl. now rewrite map_id.
  - rewrite IH. unfold update_sent. rewrite map_map. apply map_ext.
    intros r. unfold listed. simpl.
    destruct (String.eqb (id r) i) eqn:E; simpl; [|reflexivity].
    destruct (existsb _ ids) eqn:E'.
    + replace (existsb (String.eqb (id (set_sent r))) ids) with true; reflexivity.
    + replace (existsb (String.eqb (id (set_sent r))) ids) with false; reflexivity.
Qed.

Lemma listed_In ids r : listed ids r = true <-> In (id r) ids.
Proof.
  unfold listed. rewrite existsb_exists. split.
  - intros (i & Hi & E). apply String.eqb_eq in E. now subst.
  - intros H. exists (id r). split; [assumption | apply String.eqb_refl].
Qed.

Lemma mark_as_sent_keeps r (ids : list string) t :
  In r t -> ~ In (id r) ids -> In r (mark_as_sent ids t).
Proof.
  intros Hr Hn. rewrite mark_as_sent_map. apply in_map_iff. exists r.
  split; [|assumption].
  destruct (listed ids r) eqn:E; [|reflexivity].
  apply listed_In in E. contradiction.
Qed.





(** The flag and the other columns after [mark_as_sent]. *)
Lemma mark_as_sent_flags (ids : list string) t :
  map sent_in_email (mark_as_sent ids t)
  = map (fun r => listed ids r || sent_in_email r) t.
Proof.
  rewrite mark_as_sent_map, map_map. apply map_ext. intros r.
  now destruct (listed ids r).
Qed.

Lemma mark_as_sent_columns (ids : list string) t :
  map other_columns (mark_as_sent ids t) = map other_columns t.
Proof.
  rewrite mark_as_sent_map, map_map. apply map_ext. intros r.
  now destruct (listed ids r).
Qed.

Lemma get_unsent_In r now t :
  In r (get_unsent_scholarships now t) <->
  In r t /\ sent_in_email r = false
  /\ String.ltb (cutoff now) (row_timestamp r) = true.
Proof.
  unfold get_unsent_scholarships.
  rewrite filter_In, andb_true_iff, negb_true_iff. tauto.
Qed.

End StoreFacts.

(** *** Upsert, mark-sent and selection *)

(** C1 (the code departs from the claim).  On an empty store: upsert the
    PMRF record, mark its id as sent, upsert the same record again.  The
    row is then stored with [sent_in_email = false]: the second
    [INSERT OR REPLACE] names eight columns, so the replaced row takes the
    column default and the sent flag reverts. *)
Theorem C1_reingest_resets_sent :
  let s := pmrf "2025-01-08T12:00:00" in
  let i := Database.scholarship_id (title s) (source s) in
  let calls := [Database.AddScholarship s; Database.MarkAsSent [i];
                Database.GetUnsentScholarships (Clock.mkDatetime 2025 1 8 12 0 0 0);
                Database.AddScholarship s] in
  let before := snd (Database.exec_all (firstn 2 calls) Database.create_tables) in
  let after := snd (Database.exec_all calls Database.create_tables) in
  map Database.sent_in_email (Database.rows_with_id i before) = [true]
  /\ map Database.sent_in_email (Database.rows_with_id i after) = [false]
  /\ fst (Database.exec_all calls Database.create_tables)
     = [Database.Done; Database.Done; Database.Rows []; Database.Done].
Proof. vm_compute. repeat split. Qed.

(** The same for every store and record: whatever the flag was, the row
    an upsert leaves for its id is unsent. *)
Lemma add_scholarship_resets_sent (s : ScholarshipData) (t : Database.table) :
  exists t',
    Database.add_scholarship s t = Some t'
    /\ map Database.sent_in_email
         (Database.rows_with_id (Database.id (Database.row_of s)) t') = [false].
Proof.
  eexists. split; [apply add_scholarship_eq|].
  now rewrite rows_with_id_replace.
Qed.

(** C4.  Two upserts with the same derived id: neither raises, the store
    then holds exactly one row for that id and it is the row of the second
    call, so every row stored under that id carries the title, the
    description, the source, the URL, the amount, the deadline and the
    timestamp of the second record, and is unsent; and from a store with
    unique ids, any sequence of upserts succeeds and leaves the ids
    unique. *)
Theorem C4_upsert_replaces :
  forall (t : Database.table) (s1 s2 : ScholarshipData),
    Database.scholarship_id (title s1) (source s1)
    = Database.scholarship_id (title s2) (source s2) ->
    (exists t1 t2,
        Database.add_scholarship s1 t = Some t1
        /\ Database.add_scholarship s2 t1 = Some t2
        /\ Database.rows_with_id
             (Database.scholarship_id (title s2) (source s2)) t2
           = [Database.row_of s2]
        /\ (forall r,
               In r t2 ->
               Database.id r = Database.scholarship_id (title s2) (source s2) ->
               Database.row_title r = title s2
               /\ Database.row_description r = description s2
               /\ Database.row_source r = source s2
               /\ Database.row_url r = url s2
               /\ Database.row_amount r = amount s2
               /\ Database.row_deadline r = deadline s2
               /\ Database.row_timestamp r = timestamp s2
               /\ Database.sent_in_email r = false)
        /\ (Database.unique_ids t -> Database.unique_ids t2))
    /\ (forall ss : list ScholarshipData,
           Database.unique_ids t ->
           Forall (fun a => a = Database.Done)
                  (fst (Database.exec_all (map Database.AddScholarship ss) t))
           /\ Database.unique_ids
                (snd (Database.exec_all (map Database.AddScholarship ss) t))).
Proof.
  intros t s1 s2 E. split.
  - do 2 eexists. split; [apply add_scholarship_eq|].
    split; [apply add_scholarship_eq|].
    pose proof (rows_with_id_replace (Database.row_of s2)
                  (Database.delete_id (Database.id (Database.row_of s1)) t
                   ++ [Database.row_of s1])) as Hone.
    split; [exact Hone|]. split.
    + intros r Hr Hi.
      assert (In r [Database.row_of s2]) as Hin.
      { rewrite <- Hone. apply filter_In. split; [exact Hr|].
        apply String.eqb_eq. exact Hi. }
      destruct Hin as [<-|[]]. now repeat split.
    + intros H. now do 2 apply unique_ids_replace.
  - intros ss H. now apply exec_all_adds_unique.
Qed.

(** The PMRF record upserted twice, a day apart: the one row left carries
    the timestamp of the second call. *)
Lemma C4_upsert_replaces_witness :
  exists t2,
    Database.add_scholarship (pmrf "2025-01-09T08:30:00")
      [Database.row_of (pmrf "2025-01-08T12:00:00")] = Some t2
    /\ Database.rows_with_id
         (Database.scholarship_id (title (pmrf "")) (source (pmrf ""))) t2
       = [Database.row_of (pmrf "2025-01-09T08:30:00")]
    /\ map Database.row_timestamp t2 = ["2025-01-09T08:30:00"]
    /\ (forall r, In r t2 ->
                  Database.row_timestamp r = "2025-01-09T08:30:00"
                  /\ Database.row_url r = "https://pmrf.in/").
Proof.
  destruct (C4_upsert_replaces Database.create_tables
              (pmrf "2025-01-08T12:00:00") (pmrf "2025-01-09T08:30:00")
              eq_refl) as [(t1 & t2 & H1 & H2 & H3 & H4 & _) _].
  exists t2. vm_compute in H1. injection H1 as <-.
  split; [assumption|]. split; [assumption|].
  assert (t2 = [Database.row_of (pmrf "2025-01-09T08:30:00")]) as Et
      by (vm_compute in H2; injection H2 as <-; reflexivity).
  split; [now rewrite Et|].
  intros r Hr.
  assert (Database.id r
          = Database.scholarship_id (title (pmrf "2025-01-09T08:30:00"))
              (source (pmrf "2025-01-09T08:30:00"))) as Hi
      by (rewrite Et in Hr; destruct Hr as [<-|[]]; reflexivity).
  destruct (H4 r Hr Hi) as (_ & _ & _ & Hu & _ & _ & Hts & _).
  split; assumption.
Defined.

(** C5.  The id [add_scholarship] stores is a function of the title and
    the source alone: two records that agree on both, whatever their other
    fields and timestamps, upserted into whatever stores, are stored under
    one and the same id, the MD5 hex digest of title followed by source. *)
Theorem C5_fingerprint_deterministic :
  forall (s1 s2 : ScholarshipData) (t1 t2 : Database.table),
    title s1 = title s2 ->
    source s1 = source s2 ->
    exists t1' t2',
      Database.add_scholarship s1 t1 = Some t1'
      /\ Database.add_scholarship s2 t2 = Some t2'
      /\ In (Database.row_of s1) t1'
      /\ In (Database.row_of s2) t2'
      /\ Database.id (Database.row_of s1) = Database.id (Database.row_of s2)
      /\ Database.id (Database.row_of s1)
         = Hashlib.md5_hexdigest (title s1 ++ source s1)%string.
Proof.
  intros s1 s2 t1 t2 Et Es.
  do 2 eexists. split; [apply add_scholarship_eq|].
  split; [apply add_scholarship_eq|].
  split; [apply in_or_app; right; now left|].
  split; [apply in_or_app; right; now left|].
  split; [|reflexivity].
  simpl. now rewrite Et, Es.
Qed.

(** Two PMRF records built a year apart, upserted into different stores. *)
Lemma C5_fingerprint_deterministic_witness :
  Database.id (Database.row_of (pmrf "2025-01-08T12:00:00"))
  = Database.id (Database.row_of (pmrf "2026-03-01T09:05:07.001234"))
  /\ Database.id (Database.row_of (pmrf "2025-01-08T12:00:00"))
     = "c9ab670a60928f36814e2a2a69234eba".
Proof.
  destruct (C5_fingerprint_deterministic
              (pmrf "2025-01-08T12:00:00") (pmrf "2026-03-01T09:05:07.001234")
              Database.create_tables
              [Database.row_of (pmrf "2024-12-31T23:59:59")]
              eq_refl eq_refl) as (t1' & t2' & _ & _ & _ & _ & E & _).
  split; [exact E | vm_compute; reflexivity].
Defined.

(** C6.  [mark_as_sent ids] raises nothing and rewrites the table row by
    row: a row whose id is among [ids] gets [sent_in_email = true] and
    keeps its other columns, every other row is left as it was.  After the
    call every row stored under a listed id has the flag set, the flag of
    a row is set exactly when its id is listed or it was set before, and
    the other eight columns of every row are as they were.  No row is
    added or removed, so an id that is not stored changes nothing. *)
Theorem C6_mark_as_sent :
  forall (ids : list string) (t : Database.table),
    fst (Database.exec (Database.MarkAsSent ids) t) = Database.Done
    /\ Database.mark_as_sent ids t
       = map (fun r => if Database.listed ids r then Database.set_sent r else r) t
    /\ map Database.id (Database.mark_as_sent ids t) = map Database.id t
    /\ (forall r, In r t -> In (Database.id r) ids ->
                  In (Database.set_sent r) (Database.mark_as_sent ids t))
    /\ (forall r, In r t -> ~ In (Database.id r) ids ->
                  In r (Database.mark_as_sent ids t))
    /\ ((forall i, In i ids -> Database.has_id i t = false) ->
        Database.mark_as_sent ids t = t)
    /\ (forall r, In r (Database.mark_as_sent ids t) ->
                  In (Database.id r) ids ->
                  Database.sent_in_email r = true)
    /\ map Database.sent_in_email (Database.mark_as_sent ids t)
       = map (fun r => Database.listed ids r || Database.sent_in_email r) t
    /\ map Database.other_columns (Database.mark_as_sent ids t)
       = map Database.other_columns t.
Proof.
  intros ids t. split; [reflexivity|].
  split; [apply mark_as_sent_map|].
  split; [|split; [|split; [|split; [|split; [|split]]]]].
  - rewrite mark_as_sent_map, map_map. apply map_ext. intros r.
    now destruct (Database.listed ids r).
  - intros r Hr Hi. rewrite mark_as_sent_map. apply in_map_iff. exists r.
    split; [|assumption]. apply listed_In in Hi. now rewrite Hi.
  - intros r Hr Hi. now apply mark_as_sent_keeps.
  - intros H. rewrite mark_as_sent_map. rewrite <- (map_id t) at 2.
    apply map_ext_in. intros r Hr.
    destruct (Database.listed ids r) eqn:E; [|reflexivity].
    apply listed_In in E. specialize (H _ E).
    assert (Database.has_id (Database.id r) t = true) as H'
        by (apply has_id_In; now apply in_map).
    congruence.
  - intros r Hr Hi. rewrite mark_as_sent_map in Hr.
    apply in_map_iff in Hr as (r0 & E & _).
    destruct (Database.listed ids r0) eqn:El.
    + now subst r.
    + subst r. apply listed_In in Hi. congruence.
  - apply mark_as_sent_flags.
  - apply mark_as_sent_columns.
Qed.

(** Marking the PMRF id together with an id that is not stored: the flag
    of the stored row goes from false to true, its timestamp stays; an id
    that is not stored changes nothing. *)
Lemma C6_mark_as_sent_witness :
  let r := Database.row_of (pmrf "2025-01-08T12:00:00") in
  let ids := ["c9ab670a60928f36814e2a2a69234eba"; "no-such-id"] in
  Database.sent_in_email r = false
  /\ map Database.sent_in_email (Database.mark_as_sent ids [r]) = [true]
  /\ map Database.row_timestamp (Database.mark_as_sent ids [r])
     = ["2025-01-08T12:00:00"]
  /\ Database.mark_as_sent ["no-such-id"] [r] = [r].
Proof.
  intros r ids. split; [reflexivity|]. split; [|split].
  - rewrite (proj1 (proj2 (proj2 (proj2 (proj2 (proj2 (proj2 (proj2
               (C6_mark_as_sent ids [r]))))))))).
    vm_compute. reflexivity.
  - vm_compute. reflexivity.
  - apply (proj2 (proj2 (proj2 (proj2 (proj2
             (C6_mark_as_sent ["no-such-id"] [r])))))).
    intros i [<-|[]]. vm_compute. reflexivity.
Defined.

(** C10.  The id hashes title and source glued together with nothing in
    between, so pairs with equal concatenations share an id, and the
    second of two such records replaces the first without an error.
    ("ab", "c") and ("a", "bc") are such a pair. *)
Theorem C10_concatenation_collision :
  (forall (s1 s2 : ScholarshipData) (t : Database.table),
      (title s1 ++ source s1 = title s2 ++ source s2)%string ->
      Database.id (Database.row_of s1) = Database.id (Database.row_of s2)
      /\ exists t1 t2,
           Database.add_scholarship s1 t = Some t1
           /\ Database.add_scholarship s2 t1 = Some t2
           /\ Database.rows_with_id (Database.id (Database.row_of s1)) t2
              = [Database.row_of s2])
  /\ (exists title1 source1 title2 source2 : string,
         (title1, source1) <> (title2, source2)
         /\ Database.scholarship_id title1 source1
            = Database.scholarship_id title2 source2).
Proof.
  split.
  - intros s1 s2 t E.
    assert (Database.id (Database.row_of s1) = Database.id (Database.row_of s2)) as Ei
        by (simpl; unfold Database.scholarship_id; now rewrite E).
    split; [assumption|].
    do 2 eexists. split; [apply add_scholarship_eq|].
    split; [apply add_scholarship_eq|].
    rewrite Ei. apply rows_with_id_replace.
  - exists "ab", "c", "a", "bc". split; [discriminate | reflexivity].
Qed.

(** Both records are stored under md5 of the text abc, and the second
    upsert leaves only the second record. *)
Lemma C10_concatenation_collision_witness :
  let a := mkScholarshipData "ab" "first" "c" "https://a.example/" None None
             "2025-01-08T12:00:00" in
  let b := mkScholarshipData "a" "second" "bc" "https://b.example/" None None
             "2025-01-08T12:00:01" in
  Database.id (Database.row_of a) = "900150983cd24fb0d6963f7d28e17f72"
  /\ Database.id (Database.row_of b) = "900150983cd24fb0d6963f7d28e17f72"
  /\ exists t2,
       Database.add_scholarship b [Database.row_of a] = Some t2
       /\ t2 = [Database.row_of b].
Proof.
  intros a b.
  destruct (proj1 C10_concatenation_collision a b Database.create_tables eq_refl)
    as (E & t1 & t2 & H1 & H2 & H3).
  split; [vm_compute; reflexivity|].
  split; [rewrite <- E; vm_compute; reflexivity|].
  vm_compute in H1. injection H1 as <-.
  exists t2. split; [exact H2|].
  vm_compute in H2. now injection H2 as <-.
Defined.

(** ** Calendar text: how the two renderings compare as strings *)

Section ClockFacts.

Import Clock.

Lemma lex_assoc (c1 c2 c3 : comparison) : lex (lex c1 c2) c3 = lex c1 (lex c2 c3).
Proof. now destruct c1. Qed.

(** Digits compare as the numbers they print. *)
Lemma digit_compare (a b : Z) :
  Ascii.compare (digit a) (digit b) = (a mod 10 ?= b mod 10).
Proof.
  unfold digit.
  generalize (Z.mod_pos_bound a 10 eq_refl). generalize (a mod 10). intros x Hx.
  generalize (Z.mod_pos_bound b 10 eq_refl). generalize (b mod 10). intros y Hy.
  assert (x = 0 \/ x = 1 \/ x = 2 \/ x = 3 \/ x = 4
          \/ x = 5 \/ x = 6 \/ x = 7 \/ x = 8 \/ x = 9) as Cx by lia.
  assert (y = 0 \/ y = 1 \/ y = 2 \/ y = 3 \/ y = 4
          \/ y = 5 \/ y = 6 \/ y = 7 \/ y = 8 \/ y = 9) as Cy by lia.
  clear Hx Hy.
  repeat (destruct Cx as [->|Cx]); try subst x;
    repeat (destruct Cy as [->|Cy]); try subst y; reflexivity.
Qed.

Lemma compare_cons (c1 c2 : ascii) (s1 s2 : string) :
  String.compare (String c1 s1) (String c2 s2)
  = lex (Ascii.compare c1 c2) (String.compare s1 s2).
Proof. simpl. now destruct (Ascii.compare c1 c2). Qed.

Lemma compare_same_head (c : ascii) (s1 s2 : string) :
  String.compare (String c s1) (String c s2) = String.compare s1 s2.
Proof.
  rewrite compare_cons. unfold Ascii.compare. now rewrite N.compare_refl.
Qed.

Lemma compare_pad2 (a b : Z) (k1 k2 : string) :
  String.compare (pad2 a k1) (pad2 b k2)
  = lex (a mod 100 ?= b mod 100) (String.compare k1 k2).
Proof.
  unfold pad2. rewrite !compare_cons, !digit_compare, <- lex_assoc. f_equal.
  destruct (Z.compare_spec ((a / 10) mod 10) ((b / 10) mod 10));
    destruct (Z.compare_spec (a mod 10) (b mod 10));
    destruct (Z.compare_spec (a mod 100) (b mod 100));
    simpl; try reflexivity; exfalso; Z.div_mod_to_equations; lia.
Qed.

Lemma compare_pad4 (a b : Z) (k1 k2 : string) :
  0 <= a < 10000 -> 0 <= b < 10000 ->
  String.compare (pad4 a k1) (pad4 b k2) = lex (a ?= b) (String.compare k1 k2).
Proof.
  intros Ha Hb.
  assert (forall n k, pad4 n k = pad2 (n / 100) (pad2 n k)) as E.
  { intros n k. unfold pad4, pad2. rewrite Z.div_div by lia. reflexivity. }
  rewrite !E, !compare_pad2, <- lex_assoc. f_equal.
  destruct (Z.compare_spec ((a / 100) mod 100) ((b / 100) mod 100));
    destruct (Z.compare_spec (a mod 100) (b mod 100));
    destruct (Z.compare_spec a b);
    simpl; try reflexivity; exfalso; Z.div_mod_to_equations; lia.
Qed.

Lemma compare_fmt_date (a b : datetime) (k1 k2 : string) :
  printable a -> printable b ->
  String.compare (fmt_date a k1) (fmt_date b k2)
  = lex (compare_date a b) (String.compare k1 k2).
Proof.
  intros (Ya & Ma & Da) (Yb & Mb & Db).
  unfold fmt_date, compare_date.
  rewrite compare_pad4 by assumption.
  rewrite compare_same_head, compare_pad2, compare_same_head, compare_pad2.
  rewrite !Z.mod_small by assumption.
  now rewrite !lex_assoc.
Qed.

(** SQLite's text against Python's: equal dates are decided by the
    separator, and a blank sorts before the letter T. *)
Lemma compare_sqlite_isoformat (c dt : datetime) :
  printable c -> printable dt ->
  String.compare (sqlite_datetime c) (isoformat dt) = lex (compare_date c dt) Lt.
Proof.
  intros Hc Hd. unfold sqlite_datetime, isoformat.
  rewrite compare_fmt_date by assumption. f_equal.
Qed.

Lemma ltb_sqlite_isoformat (c dt : datetime) :
  printable c -> printable dt ->
  String.ltb (sqlite_datetime c) (isoformat dt)
  = match compare_date c dt with Gt => false | _ => true end.
Proof.
  intros Hc Hd. unfold String.ltb. rewrite compare_sqlite_isoformat by assumption.
  now destruct (compare_date c dt).
Qed.

Lemma days_in_month_range (y m : Z) : 28 <= days_in_month y m <= 31.
Proof.
  unfold days_in_month.
  destruct (m =? 2); [destruct (is_leap y); lia|].
  destruct ((m =? 4) || (m =? 6) || (m =? 9) || (m =? 11)); lia.
Qed.

Lemma valid_spec (dt : datetime) :
  valid dt = true ->
  1 <= year dt <= 9999 /\ date_ok dt.
Proof.
  unfold valid, date_ok. rewrite !andb_true_iff. lia.
Qed.

Lemma valid_printable (dt : datetime) : valid dt = true -> printable dt.
Proof.
  intros H. apply valid_spec in H as (Hy & Hm & Hd).
  pose proof (days_in_month_range (year dt) (month dt)).
  unfold printable. lia.
Qed.

(** One day back: still a date, strictly earlier, at most one year down. *)
Lemma prev_day_spec (dt : datetime) :
  date_ok dt ->
  date_ok (prev_day dt)
  /\ compare_date (prev_day dt) dt = Lt
  /\ year dt - 1 <= year (prev_day dt) <= year dt.
Proof.
  destruct dt as [y m d h mi s us]. unfold date_ok, compare_date. simpl.
  intros (Hm & Hd).
  destruct (Z.ltb_spec 1 d); [|destruct (Z.ltb_spec 1 m)]; simpl.
  - rewrite !Z.compare_refl. simpl.
    repeat split; try lia. now apply Z.compare_lt_iff; lia.
  - pose proof (days_in_month_range y (m - 1)).
    rewrite Z.compare_refl. simpl.
    replace (m - 1 ?= m) with Lt by (symmetry; apply Z.compare_lt_iff; lia).
    repeat split; lia.
  - replace (y - 1 ?= y) with Lt by (symmetry; apply Z.compare_lt_iff; lia).
    repeat split; try lia. unfold days_in_month. simpl. lia.
Qed.

Lemma minus_days_S (n : nat) (dt : datetime) :
  minus_days (Datatypes.S n) dt = prev_day (minus_days n dt).
Proof. reflexivity. Qed.

Lemma minus_days_spec (n : nat) (dt : datetime) :
  date_ok dt ->
  date_ok (minus_days n dt)
  /\ year dt - Z.of_nat n <= year (minus_days n dt) <= year dt.
Proof.
  intros H. induction n as [|n (IH1 & IH2)].
  - simpl. split; [assumption | lia].
  - rewrite minus_days_S.
    destruct (prev_day_spec _ IH1) as (H1 & _ & H3). split; [assumption | lia].
Qed.


Lemma leb_compare_date (a b : datetime) :
  Clock.leb a b = true -> compare_date a b <> Gt.
Proof.
  unfold Clock.leb, Clock.compare. destruct (compare_date a b); simpl; congruence.
Qed.

(** What the window of the query is, in calendar terms, for the cutoff
    date [c = now - 7 days]: a timestamp passes when its date is not before
    the date of [c]. *)
Lemma cutoff_by_date (now dt : datetime) :
  printable (minus_days 7 now) -> printable dt ->
  String.ltb (Database.cutoff now) (isoformat dt)
  = match compare_date (minus_days 7 now) dt with Gt => false | _ => true end.
Proof. intros. unfold Database.cutoff. now apply ltb_sqlite_isoformat. Qed.


End ClockFacts.

(** *** The selection window *)


(** The comparison is decided by the calendar date alone: with the cutoff
    at 2025-01-01 12:00:00, a row stamped eleven hours before it, on the
    same day, is still selected. *)
Example stale_row_of_the_cutoff_day :
  let now := Clock.mkDatetime 2025 1 8 12 0 0 0 in
  let r := Database.row_of (pmrf "2025-01-01T01:00:00") in
  Database.cutoff now = "2025-01-01 12:00:00"
  /\ Database.get_unsent_scholarships now [r] = [r].
Proof. vm_compute. split; reflexivity. Qed.





(** ** The run pipeline *)

Section RunFacts.
Import Run.

Lemma events_bind {A B : Type} (m : M A) (f : A -> M B) :
  events (bind m f)
  = events m ++ match outcome m with inl _ => [] | inr a => events (f a) end.
Proof.
  destruct m as [tr [e|a]]; simpl; [now rewrite app_nil_r|].
  now destruct (f a).
Qed.

Lemma events_try_except {A : Type} (m : M A) (h : exn -> M A) :
  events (try_except m h)
  = events m ++ match outcome m with inl e => events (h e) | inr _ => [] end.
Proof.
  destruct m as [tr [e|a]]; simpl; [|now rewrite app_nil_r].
  now destruct (h e).
Qed.

Lemma for_each_emit (f : string -> event) (l : list string) :
  for_each (fun x => emit (f x)) l = (map f l, inr tt).
Proof.
  induction l as [|x l IH]; [reflexivity|].
  simpl. now rewrite IH.
Qed.

(** A handler that logs one line and returns a default. *)
Lemma try_except_log_default {A : Type} (m : M A) (msg : exn -> string) (d : A) :
  try_except m (fun e => bind (logging_error (msg e)) (fun _ => ret d))
  = match outcome m with
    | inl e => (events m ++ [Log ERROR (msg e)], inr d)
    | inr a => (events m, inr a)
    end.
Proof. destruct m as [tr [e|a]]; reflexivity. Qed.

Lemma catalog_nonempty (w : world) : get_available_scholarships w <> [].
Proof. unfold get_available_scholarships, AVAILABLE_SCHOLARSHIPS. discriminate. Qed.

Lemma process_with_gemini_failed (w : world) (l : list ScholarshipData) (e : exn) :
  generate_content w l = inl e ->
  process_with_gemini w l
  = ([Log ERROR ("Error processing with Gemini: " ++ exn_str e)%string], inr sentinel).
Proof.
  intros H. unfold process_with_gemini. rewrite try_except_log_default.
  unfold call. simpl. now rewrite H.
Qed.

Lemma send_email_events (w : world) (content : string) :
  exists rest, events (send_email w content) = SendEmail content :: rest.
Proof.
  unfold send_email. rewrite events_bind. simpl. eexists. reflexivity.
Qed.

Lemma main_sends_sentinel (w : world) (e : exn) :
  validate_email_config w = [] ->
  generate_content w (get_available_scholarships w) = inl e ->
  In (SendEmail (enhance_scholarship_content sentinel)) (events (main w)).
Proof.
  intros Hv Hg. unfold main. rewrite events_try_except. apply in_or_app. left.
  rewrite Hv.
  pose proof (catalog_nonempty w) as Hc.
  rewrite events_bind. apply in_or_app. right.
  unfold logging_warning. rewrite for_each_emit. cbn [outcome snd].
  destruct (get_available_scholarships w) as [|s0 l] eqn:Ecat; [contradiction|].
  rewrite (process_with_gemini_failed w _ e Hg).
  rewrite events_bind. cbn [outcome snd events fst]. right.
  change (String.eqb sentinel "") with false. cbv iota.
  rewrite events_bind.
  destruct (send_email_events w (enhance_scholarship_content sentinel)) as (rest & ->).
  now left.
Qed.

End RunFacts.

Section FetchFacts.
Import Run.

Lemma silent_bind {A B : Type} (m : M A) (f : A -> M B) :
  events m = [] -> (forall a, events (f a) = []) -> events (bind m f) = [].
Proof.
  intros Hm Hf. rewrite events_bind, Hm. simpl.
  destruct (outcome m); [reflexivity | apply Hf].
Qed.

Lemma subscript_events {V : Type} (d : option V) (key : string) :
  events (subscript d key) = [].
Proof. now destruct d. Qed.

Lemma buddy4study_items_silent (w : world) (cfg : config) (items : list json_item) :
  events (buddy4study_items w cfg items) = [].
Proof.
  induction items as [|[item|type_name] rest IH]; cbn [buddy4study_items];
    try reflexivity.
  apply silent_bind; [apply subscript_events|]. intros url.
  apply silent_bind; [assumption|]. reflexivity.
Qed.

(** The [try] block of the Buddy4Study fetch logs nothing itself. *)
Lemma fetch_buddy4study_body_silent (w : world) (cfg : config) :
  events (fetch_buddy4study_body w cfg) = [].
Proof.
  unfold fetch_buddy4study_body.
  apply silent_bind; [apply subscript_events|]. intros api_url.
  apply silent_bind; [apply subscript_events|]. intros params.
  apply silent_bind; [reflexivity|]. intros data.
  apply silent_bind; [|intros; apply buddy4study_items_silent].
  now destruct data as [[items|]|type_name|type_name].
Qed.

End FetchFacts.

Example buddy4study_config_listed :
  Run.dict_find "Buddy4Study" Run.SCHOLARSHIP_SOURCES = Some buddy4study_config.
Proof. reflexivity. Qed.

(** *** Failure paths of the pipeline *)

(** C2 (the code departs from the claim).  In a world where the
    environment is complete and the formatter raises, [process_with_gemini]
    returns its sentinel text, which is not empty, so the guard of [main]
    lets it through: [send_email] is entered with the (enhanced) sentinel
    and the mail goes out. *)
Theorem C2_formatter_failure_still_sends :
  let w := quiet_world env_ok (inl quota) in
  Run.outcome (Run.process_with_gemini w (Run.get_available_scholarships w))
  = inr Run.sentinel
  /\ Run.events (Run.script w)
     = [ Run.Log Run.WARNING
           "Amount may be missing currency in scholarship: National Overseas Scholarship";
         Run.Log Run.WARNING
           "Invalid deadline format in scholarship: CSIR Junior Research Fellowship";
         Run.Log Run.ERROR "Error processing with Gemini: quota exceeded";
         Run.SendEmail (Run.enhance_scholarship_content Run.sentinel);
         Run.MailSend "you@example.org" (Run.enhance_scholarship_content Run.sentinel);
         Run.Log Run.INFO "Email sent successfully to you@example.org";
         Run.Log Run.INFO "Successfully processed and sent scholarship updates" ].
Proof. vm_compute. split; reflexivity. Qed.

(** C8.  When any of the four configuration variables is absent, loading
    the module raises [ValueError]; run as a script, the program ends with
    that exception before [main] is entered: nothing is logged, formatted
    or sent. *)
Theorem C8_missing_configuration_is_fatal :
  forall w : Run.world,
    Run.getenv w "GOOGLE_API_KEY" = None
    \/ Run.getenv w "EMAIL_ADDRESS" = None
    \/ Run.getenv w "EMAIL_PASSWORD" = None
    \/ Run.getenv w "RECIPIENT_EMAIL" = None ->
    exists msg,
      Run.module_init w = ([], inl (Run.ValueError msg))
      /\ Run.script w = ([], inl (Run.ValueError msg)).
Proof.
  intros w H.
  assert (exists msg, Run.module_init w = ([], inl (Run.ValueError msg))) as (msg & E).
  { unfold Run.module_init.
    destruct (Str.truthy (Run.getenv w "GOOGLE_API_KEY")) eqn:Eg; simpl.
    - destruct H as [H|[H|[H|H]]]; rewrite H in *; simpl in *;
        try discriminate; rewrite ?andb_false_r; simpl; eexists; reflexivity.
    - eexists. reflexivity. }
  exists msg. split; [assumption|]. unfold Run.script. now rewrite E.
Qed.

(** With [EMAIL_PASSWORD] unset the script ends in [ValueError]. *)
Lemma C8_missing_configuration_is_fatal_witness :
  let env := fun k => if String.eqb k "EMAIL_PASSWORD" then None else env_ok k in
  exists msg,
    Run.script (quiet_world env (inr "<p>digest</p>"))
    = ([], inl (Run.ValueError msg)).
Proof.
  intros env.
  destruct (C8_missing_configuration_is_fatal
              (quiet_world env (inr "<p>digest</p>"))
              (or_intror (or_intror (or_introl eq_refl))))
    as (msg & _ & E).
  now exists msg.
Defined.

(** C9, as the specification words it, fails on the log level: a failed
    fetch is logged with [logging.error], and no WARNING record is
    written. *)
Lemma C9_counterexample :
  ~ (forall (w : Run.world) (cfg : Run.config) (e : Run.exn),
        Run.outcome (Run.fetch_buddy4study_body w cfg) = inl e ->
        Run.outcome (Run.fetch_buddy4study_scholarships w cfg) = inr []
        /\ exists msg,
             In (Run.Log Run.WARNING msg)
                (Run.events (Run.fetch_buddy4study_scholarships w cfg))).
Proof.
  intros H.
  destruct (H (quiet_world env_ok (inl quota)) buddy4study_config
              (Run.mkExn "ConnectionError" "connection refused") eq_refl)
    as (_ & msg & Hin).
  vm_compute in Hin. destruct Hin as [Hin|[]]. discriminate Hin.
Qed.

(** C9, amended.  Neither fetch function ever propagates an exception.
    When the [try] block of one raises [e], the function returns the empty
    list and appends one ERROR record that carries [str(e)]. *)
Theorem C9_fetch_failure_is_contained :
  forall (w : Run.world) (source_name : string) (cfg : Run.config),
    (exists l, Run.outcome (Run.fetch_buddy4study_scholarships w cfg) = inr l)
    /\ (exists l, Run.outcome (Run.fetch_scholarship_data w source_name cfg) = inr l)
    /\ (forall e,
           Run.outcome (Run.fetch_buddy4study_body w cfg) = inl e ->
           Run.fetch_buddy4study_scholarships w cfg
           = ([Run.Log Run.ERROR
                 ("Error fetching from Buddy4Study API: " ++ Run.exn_str e)%string],
              inr []))
    /\ (forall e,
           Run.outcome (Run.fetch_scholarship_data_body w source_name cfg) = inl e ->
           Run.fetch_scholarship_data w source_name cfg
           = (Run.events (Run.fetch_scholarship_data_body w source_name cfg)
              ++ [Run.Log Run.ERROR
                    ("Error fetching data from " ++ source_name ++ ": "
                     ++ Run.exn_str e)%string],
              inr [])).
Proof.
  intros w source_name cfg.
  unfold Run.fetch_buddy4study_scholarships, Run.fetch_scholarship_data.
  rewrite !try_except_log_default, fetch_buddy4study_body_silent.
  repeat split.
  - destruct (Run.outcome (Run.fetch_buddy4study_body w cfg)); eexists; reflexivity.
  - destruct (Run.outcome (Run.fetch_scholarship_data_body w source_name cfg));
      eexists; reflexivity.
  - now intros e ->.
  - now intros e ->.
Qed.

(** Both functions against sites that refuse the connection. *)
Lemma C9_fetch_failure_is_contained_witness :
  Run.fetch_buddy4study_scholarships (quiet_world env_ok (inl quota)) buddy4study_config
  = ([Run.Log Run.ERROR
        "Error fetching from Buddy4Study API: connection refused"], inr [])
  /\ Run.fetch_scholarship_data (quiet_world env_ok (inl quota)) "AICTE"
       (Run.mkConfig (Some "https://www.aicte-india.org/") None None None)
     = ([Run.Log Run.ERROR "Error fetching data from AICTE: connection refused"],
        inr []).
Proof.
  split.
  - exact (proj1 (proj2 (proj2
      (C9_fetch_failure_is_contained (quiet_world env_ok (inl quota))
         "Buddy4Study" buddy4study_config)))
      (Run.mkExn "ConnectionError" "connection refused") eq_refl).
  - exact (proj2 (proj2 (proj2
      (C9_fetch_failure_is_contained (quiet_world env_ok (inl quota))
         "AICTE" (Run.mkConfig (Some "https://www.aicte-india.org/") None None None))))
      (Run.mkExn "ConnectionError" "connection refused") eq_refl).
Defined.

(* ===================================================================== *)
(** * Further properties *)
(* ===================================================================== *)

(** ** The store: how the three methods compose *)

Section StoreComposition.

Import Database.

Implicit Types (t : table) (r : row) (i : string) (s : ScholarshipData).

Lemma listed_set_sent (ids : list string) r :
  listed ids (set_sent r) = listed ids r.
Proof. reflexivity. Qed.

Lemma rows_with_id_delete_other i j t :
  j <> i -> rows_with_id j (delete_id i t) = rows_with_id j t.
Proof.
  intros Hji. unfold rows_with_id, delete_id.
  induction t as [|r t IH]; [reflexivity|]. cbn [filter].
  destruct (String.eqb (id r) i) eqn:Ei; cbn [negb].
  - apply String.eqb_eq in Ei.
    destruct (String.eqb (id r) j) eqn:Ej; [|exact IH].
    apply String.eqb_eq in Ej. congruence.
  - cbn [filter]. destruct (String.eqb (id r) j); [now rewrite IH | exact IH].
Qed.

(** With distinct keys, deleting a key that is present removes one row. *)
Lemma delete_id_length i t :
  unique_ids t -> has_id i t = true ->
  Datatypes.S (List.length (delete_id i t)) = List.length t.
Proof.
  unfold unique_ids. induction t as [|r t IH]; intros Hu Hi; [discriminate Hi|].
  apply NoDup_cons_iff in Hu as [Hfresh Hu].
  change (delete_id i (r :: t))
    with (if negb (String.eqb (id r) i) then r :: delete_id i t else delete_id i t).
  cbn [has_id existsb] in Hi.
  destruct (String.eqb (id r) i) eqn:E; cbn [negb].
  - apply String.eqb_eq in E. subst i.
    rewrite delete_id_absent; [reflexivity|].
    destruct (has_id (id r) t) eqn:Eh; [|reflexivity].
    apply has_id_In in Eh. contradiction.
  - cbn [List.length]. f_equal. apply IH; assumption.
Qed.

Lemma unique_ids_mark (ids : list string) t :
  unique_ids t -> unique_ids (mark_as_sent ids t).
Proof.
  unfold unique_ids. intros H.
  replace (map id (mark_as_sent ids t)) with (map id t); [exact H|].
  rewrite mark_as_sent_map, map_map. apply map_ext.
  intros r. now destruct (listed ids r).
Qed.

End StoreComposition.

(** X1.  After [mark_as_sent ids], a selection returns what it returned
    before minus the rows whose id is in [ids]; in particular no row with
    a marked id is offered. *)
Theorem mark_as_sent_hides_marked :
  forall (ids : list string) (now : Clock.datetime) (t : Database.table),
    Database.get_unsent_scholarships now (Database.mark_as_sent ids t)
    = filter (fun r => negb (Database.listed ids r))
             (Database.get_unsent_scholarships now t)
    /\ (forall r,
           In r (Database.get_unsent_scholarships now (Database.mark_as_sent ids t)) ->
           ~ In (Database.id r) ids).
Proof.
  intros ids now t.
  assert (Database.get_unsent_scholarships now (Database.mark_as_sent ids t)
          = filter (fun r => negb (Database.listed ids r))
                   (Database.get_unsent_scholarships now t)) as E.
  { rewrite mark_as_sent_map. unfold Database.get_unsent_scholarships.
    induction t as [|r t IH]; [reflexivity|]. cbn [map filter].
    destruct (Database.listed ids r) eqn:El.
    - cbn [Database.set_sent Database.sent_in_email negb andb].
      rewrite IH.
      destruct (negb (Database.sent_in_email r)
                && String.ltb (Database.cutoff now) (Database.row_timestamp r));
        [cbn [filter]; now rewrite El | reflexivity].
    - rewrite IH.
      destruct (negb (Database.sent_in_email r)
                && String.ltb (Database.cutoff now) (Database.row_timestamp r));
        [cbn [filter]; now rewrite El | reflexivity]. }
  split; [exact E|].
  intros r Hr Hin. rewrite E in Hr. apply filter_In in Hr as [_ Hr].
  apply listed_In in Hin. rewrite Hin in Hr. discriminate Hr.
Qed.

(** X2.  Marking composes: marking [ids1 ++ ids2] is marking [ids1] and
    then [ids2]; marking twice is marking once; and two lists with the same
    members mark the same rows, whatever their order and repetitions. *)
Theorem mark_as_sent_composes :
  forall (ids1 ids2 : list string) (t : Database.table),
    Database.mark_as_sent (ids1 ++ ids2) t
    = Database.mark_as_sent ids2 (Database.mark_as_sent ids1 t)
    /\ Database.mark_as_sent ids1 (Database.mark_as_sent ids1 t)
       = Database.mark_as_sent ids1 t
    /\ ((forall i, In i ids1 <-> In i ids2) ->
        Database.mark_as_sent ids1 t = Database.mark_as_sent ids2 t).
Proof.
  intros ids1 ids2 t. split; [|split].
  - unfold Database.mark_as_sent. apply fold_left_app.
  - rewrite !mark_as_sent_map, map_map. apply map_ext. intros r.
    destruct (Database.listed ids1 r) eqn:E.
    + now rewrite listed_set_sent, E.
    + now rewrite E.
  - intros H. rewrite !mark_as_sent_map. apply map_ext. intros r.
    assert (Database.listed ids1 r = Database.listed ids2 r) as ->; [|reflexivity].
    apply eq_true_iff_eq. rewrite !listed_In. apply H.
Qed.

(** Two ids given in both orders, one of them twice. *)
Lemma mark_as_sent_composes_witness :
  let r := Database.row_of (pmrf "2025-01-08T12:00:00") in
  Database.mark_as_sent ["x"; Database.id r; "x"] [r]
  = Database.mark_as_sent [Database.id r; "x"] [r].
Proof.
  intros r.
  apply (proj2 (proj2 (mark_as_sent_composes
                         ["x"; Database.id r; "x"] [Database.id r; "x"] [r]))).
  intros i. simpl. tauto.
Defined.

(** X3.  An upsert touches one key only: the rows stored under any other
    id are the same before and after. *)
Theorem add_scholarship_leaves_other_ids :
  forall (s : ScholarshipData) (t : Database.table) (j : string),
    j <> Database.scholarship_id (title s) (source s) ->
    exists t',
      Database.add_scholarship s t = Some t'
      /\ Database.rows_with_id j t' = Database.rows_with_id j t.
Proof.
  intros s t j Hj. eexists. split; [apply add_scholarship_eq|].
  unfold Database.rows_with_id at 1. rewrite filter_app. cbn [filter].
  replace (String.eqb (Database.id (Database.row_of s)) j) with false.
  - rewrite app_nil_r. now apply rows_with_id_delete_other.
  - symmetry. apply String.eqb_neq. intros E. apply Hj. symmetry. exact E.
Qed.

(** Upserting ("a", "bc") leaves the PMRF row where it was. *)
Lemma add_scholarship_leaves_other_ids_witness :
  let r := Database.row_of (pmrf "2025-01-08T12:00:00") in
  exists t',
    Database.add_scholarship
      (mkScholarshipData "a" "second" "bc" "https://b.example/" None None
         "2025-01-08T12:00:01") [r] = Some t'
    /\ Database.rows_with_id "c9ab670a60928f36814e2a2a69234eba" t' = [r].
Proof.
  intros r.
  destruct (add_scholarship_leaves_other_ids
              (mkScholarshipData "a" "second" "bc" "https://b.example/" None None
                 "2025-01-08T12:00:01") [r] "c9ab670a60928f36814e2a2a69234eba")
    as (t' & H1 & H2).
  - vm_compute. discriminate.
  - exists t'. split; [exact H1|]. rewrite H2. vm_compute. reflexivity.
Defined.

(** X4.  In a store with distinct ids, an upsert adds one row when the id
    is new and keeps the number of rows when it replaces. *)
Theorem add_scholarship_row_count :
  forall (s : ScholarshipData) (t : Database.table),
    Database.unique_ids t ->
    exists t',
      Database.add_scholarship s t = Some t'
      /\ List.length t'
         = if Database.has_id (Database.scholarship_id (title s) (source s)) t
           then List.length t
           else Datatypes.S (List.length t).
Proof.
  intros s t Hu. eexists. split; [apply add_scholarship_eq|].
  rewrite length_app. cbn [List.length Database.row_of Database.id].
  destruct (Database.has_id (Database.scholarship_id (title s) (source s)) t) eqn:E.
  - rewrite <- (delete_id_length _ t Hu E). lia.
  - rewrite delete_id_absent by exact E. lia.
Qed.

(** The catalog entry upserted into a store that already holds it, and
    into an empty one. *)
Lemma add_scholarship_row_count_witness :
  let s := pmrf "2025-01-09T08:30:00" in
  (exists t', Database.add_scholarship s [Database.row_of (pmrf "")] = Some t'
              /\ List.length t' = 1%nat)
  /\ (exists t', Database.add_scholarship s Database.create_tables = Some t'
                 /\ List.length t' = 1%nat).
Proof.
  intros s. split.
  - destruct (add_scholarship_row_count s [Database.row_of (pmrf "")])
      as (t' & H1 & H2).
    + repeat constructor. simpl. tauto.
    + exists t'. split; [exact H1|]. rewrite H2. vm_compute. reflexivity.
  - destruct (add_scholarship_row_count s Database.create_tables)
      as (t' & H1 & H2).
    + constructor.
    + exists t'. split; [exact H1|]. rewrite H2. vm_compute. reflexivity.
Defined.

(** X5.  Whatever sequence of calls runs on a store with distinct ids, no
    call answers [IntegrityError] and the ids stay distinct. *)
Theorem calls_keep_primary_key :
  forall (cs : list Database.call) (t : Database.table),
    Database.unique_ids t ->
    Forall (fun a => a <> Database.IntegrityError)
           (fst (Database.exec_all cs t))
    /\ Database.unique_ids (snd (Database.exec_all cs t)).
Proof.
  induction cs as [|c cs IH]; intros t Hu.
  - simpl. split; [constructor | assumption].
  - cbn [Database.exec_all].
    assert (fst (Database.exec c t) <> Database.IntegrityError
            /\ Database.unique_ids (snd (Database.exec c t))) as [Ha Hu'].
    { destruct c as [s|ids|now].
      - rewrite exec_add. split; [discriminate | now apply unique_ids_replace].
      - cbn. split; [discriminate | now apply unique_ids_mark].
      - cbn. split; [discriminate | assumption]. }
    destruct (Database.exec c t) as [a t1]. cbn [fst snd] in *.
    specialize (IH t1 Hu').
    destruct (Database.exec_all cs t1) as [answers t2]. cbn [fst snd] in *.
    destruct IH as [IH1 IH2]. split; [constructor|]; assumption.
Qed.

(** An upsert, a mark, a selection and a second upsert on the empty
    store. *)
Lemma calls_keep_primary_key_witness :
  let s := pmrf "2025-01-08T12:00:00" in
  Database.unique_ids
    (snd (Database.exec_all
            [Database.AddScholarship s;
             Database.MarkAsSent [Database.id (Database.row_of s)];
             Database.GetUnsentScholarships (Clock.mkDatetime 2025 1 8 12 0 0 0);
             Database.AddScholarship s]
            Database.create_tables)).
Proof.
  intros s.
  apply (calls_keep_primary_key _ Database.create_tables). constructor.
Defined.

(** ** The selection window over time *)

Section WindowFacts.

Import Clock.

(** [compare_date] read as arithmetic on the three fields. *)
Lemma compare_date_spec (a b : datetime) :
  match compare_date a b with
  | Lt => year a < year b
          \/ (year a = year b
              /\ (month a < month b \/ (month a = month b /\ day a < day b)))
  | Eq => year a = year b /\ month a = month b /\ day a = day b
  | Gt => year b < year a
          \/ (year b = year a
              /\ (month b < month a \/ (month b = month a /\ day b < day a)))
  end.
Proof.
  unfold compare_date.
  destruct (Z.compare_spec (year a) (year b));
    destruct (Z.compare_spec (month a) (month b));
    destruct (Z.compare_spec (day a) (day b)); simpl; lia.
Qed.

Lemma compare_date_not_Gt (a b : datetime) :
  compare_date a b <> Gt <->
  year a < year b
  \/ (year a = year b
      /\ (month a < month b \/ (month a = month b /\ day a <= day b))).
Proof.
  pose proof (compare_date_spec a b) as H.
  destruct (compare_date a b); split; intros; try congruence; try lia.
Qed.

Lemma compare_date_trans (a b c : datetime) :
  compare_date a b <> Gt -> compare_date b c <> Gt -> compare_date a c <> Gt.
Proof. rewrite !compare_date_not_Gt. lia. Qed.

(** [prev_day] keeps the order of dates. *)
Lemma prev_day_monotone (a b : datetime) :
  date_ok a -> date_ok b ->
  compare_date a b <> Gt -> compare_date (prev_day a) (prev_day b) <> Gt.
Proof.
  intros Ha Hb Hab.
  destruct (compare_date a b) eqn:E; [| |congruence].
  - (* same date: same day before *)
    pose proof (compare_date_spec a b) as H. rewrite E in H.
    destruct a as [y m d h mi s us], b as [y' m' d' h' mi' s' us'].
    simpl in H. destruct H as (-> & -> & ->).
    apply compare_date_not_Gt. simpl.
    destruct (1 <? d'); [|destruct (1 <? m')]; simpl; lia.
  - (* earlier date: at most the day before [b] *)
    apply compare_date_trans with a.
    + destruct (prev_day_spec a Ha) as (_ & H & _). congruence.
    + pose proof (compare_date_spec a b) as H. rewrite E in H.
      apply compare_date_not_Gt.
      destruct a as [y m d h mi s us], b as [y' m' d' h' mi' s' us'].
      unfold date_ok in Ha, Hb. simpl in *.
      pose proof (days_in_month_range y m) as Hr.
      destruct (Z.ltb_spec 1 d'); [|destruct (Z.ltb_spec 1 m')]; simpl.
      * lia.
      * destruct (Z.eq_dec y y') as [->|]; [|lia].
        destruct (Z.eq_dec m (m' - 1)) as [->|]; lia.
      * lia.
Qed.

Lemma minus_days_monotone (n : nat) (a b : datetime) :
  date_ok a -> date_ok b ->
  compare_date a b <> Gt ->
  compare_date (minus_days n a) (minus_days n b) <> Gt.
Proof.
  intros Ha Hb Hab. induction n as [|n IH]; [exact Hab|].
  rewrite !minus_days_S.
  apply prev_day_monotone; try assumption;
    now apply minus_days_spec.
Qed.

(** Membership in a selection, for a row stamped by [isoformat]. *)
Lemma selected_by_date (now dt : datetime) (t : Database.table) (r : Database.row) :
  valid (minus_days 7 now) = true ->
  valid dt = true ->
  Database.row_timestamp r = isoformat dt ->
  (In r (Database.get_unsent_scholarships now t)
   <-> In r t /\ Database.sent_in_email r = false
       /\ compare_date (minus_days 7 now) dt <> Gt).
Proof.
  intros Hc Hdt Hts.
  rewrite get_unsent_In, Hts, cutoff_by_date by (auto using valid_printable).
  destruct (compare_date (minus_days 7 now) dt); intuition congruence.
Qed.

End WindowFacts.

(** X6.  What the selection tests, in calendar terms: a stored row stamped
    [isoformat dt] is returned exactly when it is unsent and the date of
    [dt] is not before the date of [now - 7 days]; the time of day plays no
    part. *)
Theorem selection_is_by_calendar_date :
  forall (now dt : Clock.datetime) (t : Database.table) (r : Database.row),
    Clock.valid (Clock.minus_days 7 now) = true ->
    Clock.valid dt = true ->
    Database.row_timestamp r = Clock.isoformat dt ->
    (In r (Database.get_unsent_scholarships now t)
     <-> In r t /\ Database.sent_in_email r = false
         /\ Clock.compare_date (Clock.minus_days 7 now) dt <> Gt).
Proof.
  intros now dt t r Hc Hdt Hts. split.
  - intros H. now apply (selected_by_date now dt t r Hc Hdt Hts).
  - intros H. now apply (selected_by_date now dt t r Hc Hdt Hts).
Qed.

(** At noon on 8 January, a row stamped one second into 1 January is
    returned, one stamped in the last second of 31 December is not. *)
Lemma selection_is_by_calendar_date_witness :
  let now := Clock.mkDatetime 2025 1 8 12 0 0 0 in
  let r1 := Database.row_of
              (pmrf (Clock.isoformat (Clock.mkDatetime 2025 1 1 0 0 1 0))) in
  let r0 := Database.row_of
              (pmrf (Clock.isoformat (Clock.mkDatetime 2024 12 31 23 59 59 0))) in
  In r1 (Database.get_unsent_scholarships now [r0; r1])
  /\ ~ In r0 (Database.get_unsent_scholarships now [r0; r1]).
Proof.
  intros now r1 r0. split.
  - apply (selection_is_by_calendar_date now
             (Clock.mkDatetime 2025 1 1 0 0 1 0) [r0; r1] r1
             eq_refl eq_refl eq_refl).
    split; [right; now left|]. split; [reflexivity | discriminate].
  - intros H.
    apply (selection_is_by_calendar_date now
             (Clock.mkDatetime 2024 12 31 23 59 59 0) [r0; r1] r0
             eq_refl eq_refl eq_refl) in H.
    destruct H as (_ & _ & H). apply H. reflexivity.
Defined.

(** X7.  Leaving the window is final.  On one and the same store, a row
    that a selection returns at [now2] was also returned by any selection
    at an earlier [now1]; so a row that is not returned now is not returned
    later either, unless it is upserted again. *)
Theorem selection_shrinks_with_time :
  forall (now1 now2 dt : Clock.datetime) (t : Database.table) (r : Database.row),
    Clock.valid now1 = true ->
    Clock.valid now2 = true ->
    Clock.valid (Clock.minus_days 7 now1) = true ->
    Clock.valid (Clock.minus_days 7 now2) = true ->
    Clock.valid dt = true ->
    Database.row_timestamp r = Clock.isoformat dt ->
    Clock.leb now1 now2 = true ->
    In r (Database.get_unsent_scholarships now2 t) ->
    In r (Database.get_unsent_scholarships now1 t).
Proof.
  intros now1 now2 dt t r H1 H2 Hc1 Hc2 Hdt Hts Hle Hin.
  apply (selected_by_date now2 dt t r Hc2 Hdt Hts) in Hin
    as (Hr & Hs & Hd).
  apply (selected_by_date now1 dt t r Hc1 Hdt Hts).
  split; [assumption|]. split; [assumption|].
  apply compare_date_trans with (Clock.minus_days 7 now2); [|assumption].
  apply minus_days_monotone.
  - now apply valid_spec in H1.
  - now apply valid_spec in H2.
  - now apply leb_compare_date.
Qed.

(** A row still offered on 8 January was offered on 3 January. *)
Lemma selection_shrinks_with_time_witness :
  let r := Database.row_of
             (pmrf (Clock.isoformat (Clock.mkDatetime 2025 1 2 9 0 0 0))) in
  In r (Database.get_unsent_scholarships (Clock.mkDatetime 2025 1 3 12 0 0 0) [r]).
Proof.
  intros r.
  apply (selection_shrinks_with_time
           (Clock.mkDatetime 2025 1 3 12 0 0 0) (Clock.mkDatetime 2025 1 8 12 0 0 0)
           (Clock.mkDatetime 2025 1 2 9 0 0 0) [r] r
           eq_refl eq_refl eq_refl eq_refl eq_refl eq_refl eq_refl).
  vm_compute. now left.
Defined.

(** ** The shape of an id *)

Section IdShape.

Import Hashlib.

Lemma hex_digit_lower (x : Z) :
  0 <= x < 16 -> is_lower_hex (hex_digit x) = true.
Proof.
  intros H.
  assert (x = 0 \/ x = 1 \/ x = 2 \/ x = 3 \/ x = 4 \/ x = 5 \/ x = 6 \/ x = 7
          \/ x = 8 \/ x = 9 \/ x = 10 \/ x = 11 \/ x = 12 \/ x = 13 \/ x = 14
          \/ x = 15) as C by lia.
  clear H. repeat (destruct C as [->|C]); try subst x; reflexivity.
Qed.

Lemma hex_shape (l : list Z) :
  Forall (fun b => 0 <= b < 256) l ->
  String.length (hex l) = (2 * List.length l)%nat
  /\ all_chars is_lower_hex (hex l) = true.
Proof.
  induction 1 as [|b l Hb Hl [IH1 IH2]]; [now split|].
  cbn [hex String.length all_chars List.length]. split; [lia|].
  rewrite !hex_digit_lower, IH2; [reflexivity| |];
    Z.div_mod_to_equations; lia.
Qed.

Lemma le_bytes_range (n : nat) (x : Z) :
  Forall (fun b => 0 <= b < 256) (le_bytes n x)
  /\ List.length (le_bytes n x) = n.
Proof.
  revert x. induction n as [|n IH]; intros x; [split; [constructor|reflexivity]|].
  cbn [le_bytes List.length]. destruct (IH (x / 256)) as [H1 H2]. split.
  - constructor; [apply Z.mod_pos_bound; lia | assumption].
  - now rewrite H2.
Qed.

Lemma digest_shape (msg : list Z) :
  Forall (fun b => 0 <= b < 256) (digest msg)
  /\ List.length (digest msg) = 16%nat.
Proof.
  unfold digest.
  set (st := fold_left compress _ init).
  destruct (le_bytes_range 4 (sA st)) as [A1 A2],
           (le_bytes_range 4 (sB st)) as [B1 B2],
           (le_bytes_range 4 (sC st)) as [C1 C2],
           (le_bytes_range 4 (sD st)) as [D1 D2].
  split.
  - repeat (apply Forall_app; split); assumption.
  - rewrite !length_app, A2, B2, C2, D2. reflexivity.
Qed.

End IdShape.

(** X8.  Whatever the title and the source, the id [add_scholarship]
    derives is 32 characters long and made of the characters [0-9a-f]. *)
Theorem scholarship_id_shape :
  forall title source : string,
    String.length (Database.scholarship_id title source) = 32%nat
    /\ all_chars is_lower_hex (Database.scholarship_id title source) = true.
Proof.
  intros title source. unfold Database.scholarship_id, Hashlib.md5_hexdigest.
  destruct (digest_shape (Hashlib.bytes_of_string (title ++ source)%string))
    as [H1 H2].
  destruct (hex_shape _ H1) as [H3 H4]. rewrite H3, H2. now split.
Qed.

(** ** Text cleaning *)

Section TokenFacts.

Import Str.

Lemma tokens_next (s : string) :
  tokens s = match next s with
             | Some (t, rest) => t :: tokens rest
             | None => []
             end.
Proof.
  destruct s as [|c1 s1]; [reflexivity|]. cbn [tokens next].
  destruct (space1 c1); [reflexivity|].
  destruct s1 as [|c2 s2]; [reflexivity|].
  destruct (space2 c1 c2); [reflexivity|].
  destruct s2 as [|c3 s3]; [reflexivity|].
  destruct (space3 c1 c2 c3); reflexivity.
Qed.

Lemma next_text (s rest : string) (t : token) :
  next s = Some (t, rest) -> s = token_text t rest.
Proof.
  destruct s as [|c1 [|c2 [|c3 s3]]]; cbn [next];
    repeat match goal with
           | |- context [if ?b then _ else _] => destruct b
           end;
    intros H; inversion H; reflexivity.
Qed.

Lemma next_length (s rest : string) (t : token) :
  next s = Some (t, rest) -> (String.length rest < String.length s)%nat.
Proof.
  intros H. apply next_text in H. subst s. destruct t; cbn; lia.
Qed.

(** What is read first does not change when the text behind it is cut. *)
Lemma next_cut (t : token) (x y : string) :
  next (token_text t (x ++ y)) = Some (t, (x ++ y)%string) ->
  next (token_text t x) = Some (t, x).
Proof.
  destruct t, x as [|? [|? ?]], y as [|? [|? ?]]; cbn [token_text next append];
    repeat match goal with
           | |- context [if ?b then _ else _] => destruct b
           end;
    intros H; first [reflexivity | discriminate H].
Qed.

Lemma text_of_app (l1 l2 : list token) :
  text_of (l1 ++ l2) = (text_of l1 ++ text_of l2)%string.
Proof.
  induction l1 as [|t l1 IH]; [reflexivity|]. cbn [app text_of]. rewrite IH.
  now destruct t.
Qed.

Lemma text_of_tokens_bounded (n : nat) :
  forall s, (String.length s < n)%nat -> text_of (tokens s) = s.
Proof.
  induction n as [|n IH]; intros s Hn; [lia|].
  rewrite tokens_next. destruct (next s) as [[t rest]|] eqn:E.
  - cbn [text_of]. rewrite IH.
    + symmetry. now apply next_text.
    + apply next_length in E. lia.
  - destruct s as [|c1 [|c2 [|c3 s3]]]; [reflexivity| | |]; cbn [next] in E;
      repeat match type of E with
             | context [if ?b then _ else _] => destruct b
             end; discriminate E.
Qed.

(** Reading a text and writing the tokens out gives the text back. *)
Lemma text_of_tokens (s : string) : text_of (tokens s) = s.
Proof. apply (text_of_tokens_bounded (Datatypes.S (String.length s))). lia. Qed.

Lemma tokens_cons (s : string) (t : token) (l : list token) :
  tokens s = t :: l ->
  exists rest, next s = Some (t, rest) /\ tokens rest = l.
Proof.
  rewrite tokens_next. destruct (next s) as [[t0 rest]|]; [|discriminate].
  intros H. injection H as -> <-. now exists rest.
Qed.

(** The tokens of a text, read alone from where they start, are the same. *)
Lemma tokens_suffix (l1 l : list token) :
  forall s, tokens s = l1 ++ l -> tokens (text_of l) = l.
Proof.
  induction l1 as [|t l1 IH]; intros s H.
  - cbn [app] in H. rewrite <- H, text_of_tokens. reflexivity.
  - cbn [app] in H. apply tokens_cons in H as (rest & _ & H). now apply (IH rest).
Qed.

(** The same for the tokens up to some point. *)
Lemma tokens_prefix (l l3 : list token) :
  forall s, tokens s = l ++ l3 -> tokens (text_of l) = l.
Proof.
  induction l as [|t l IH]; intros s H; [reflexivity|].
  cbn [app] in H. apply tokens_cons in H as (rest & En & H).
  specialize (IH rest H). cbn [text_of]. rewrite tokens_next.
  assert (next (token_text t (text_of l)) = Some (t, text_of l)) as ->.
  { apply (next_cut t (text_of l) (text_of l3)).
    rewrite <- text_of_app, <- H, text_of_tokens.
    now rewrite <- (next_text _ _ _ En). }
  now rewrite IH.
Qed.

Lemma tokens_infix (l1 l l3 : list token) (s : string) :
  tokens s = l1 ++ l ++ l3 -> tokens (text_of l) = l.
Proof.
  intros H. apply tokens_suffix in H. now apply tokens_prefix in H.
Qed.

Lemma drop_blanks_suffix (l : list token) : exists pre, l = pre ++ drop_blanks l.
Proof.
  induction l as [|t l [pre IH]]; [now exists []|]. cbn [drop_blanks].
  destruct (is_blank t); [|now exists []].
  exists (t :: pre). cbn [app]. now rewrite <- IH.
Qed.

Lemma drop_blanks_edge (l : list token) : edge_ok (drop_blanks l).
Proof.
  induction l as [|t l IH]; [exact I|]. cbn [drop_blanks].
  destruct (is_blank t) eqn:E; [exact IH | exact E].
Qed.

Lemma drop_blanks_fixed (l : list token) : edge_ok l -> drop_blanks l = l.
Proof. destruct l as [|t l]; [reflexivity|]. cbn. now intros ->. Qed.

Lemma edge_ok_prefix (l1 l2 : list token) : edge_ok (l1 ++ l2) -> edge_ok l1.
Proof. destruct l1; [intros _; exact I | exact id]. Qed.

Lemma trim_infix (l : list token) : exists pre post, l = pre ++ trim l ++ post.
Proof.
  destruct (drop_blanks_suffix l) as [pre Hp].
  destruct (drop_blanks_suffix (rev (drop_blanks l))) as [q Hq].
  exists pre, (rev q). unfold trim.
  rewrite <- rev_app_distr, <- Hq, rev_involutive. exact Hp.
Qed.

Lemma trim_edges (l : list token) : edge_ok (trim l) /\ edge_ok (rev (trim l)).
Proof.
  split.
  - destruct (drop_blanks_suffix (rev (drop_blanks l))) as [q Hq].
    apply (edge_ok_prefix _ (rev q)). unfold trim.
    rewrite <- rev_app_distr, <- Hq, rev_involutive. apply drop_blanks_edge.
  - unfold trim. rewrite rev_involutive. apply drop_blanks_edge.
Qed.

Lemma trim_fixed (l : list token) : edge_ok l -> edge_ok (rev l) -> trim l = l.
Proof.
  intros H1 H2. unfold trim.
  rewrite (drop_blanks_fixed l H1), (drop_blanks_fixed _ H2).
  apply rev_involutive.
Qed.

Lemma tokens_strip (s : string) : tokens (strip s) = trim (tokens s).
Proof.
  destruct (trim_infix (tokens s)) as (pre & post & H).
  exact (tokens_infix _ _ _ _ H).
Qed.

Lemma strip_trimmed (s : string) : trimmed (strip s).
Proof. unfold trimmed. rewrite tokens_strip. apply trim_edges. Qed.

Lemma strip_fixed (s : string) : trimmed s -> strip s = s.
Proof.
  intros [H1 H2]. unfold strip. rewrite (trim_fixed _ H1 H2). apply text_of_tokens.
Qed.

End TokenFacts.

(** X9.  [parse_deadline] returns a text with no blank character at
    either end, blank as [str.strip] has it: the ASCII ones and the
    others Unicode counts as white space, such as U+00A0 and U+2003.
    Applying it to its own result changes nothing, and a text with no
    blank at its ends is returned as it is. *)
Theorem parse_deadline_trims :
  forall deadline_text : string,
    trimmed (Run.parse_deadline deadline_text)
    /\ Run.parse_deadline (Run.parse_deadline deadline_text)
       = Run.parse_deadline deadline_text
    /\ (trimmed deadline_text -> Run.parse_deadline deadline_text = deadline_text).
Proof.
  intros s. unfold Run.parse_deadline. split; [apply strip_trimmed|]. split.
  - apply strip_fixed, strip_trimmed.
  - apply strip_fixed.
Qed.

(** A deadline as it is; the same after a line break and a no-break space
    (U+00A0), and before an em space (U+2003) and a blank. *)
Lemma parse_deadline_trims_witness :
  Run.parse_deadline "March 31, 2025" = "March 31, 2025"
  /\ Run.parse_deadline
       (String (ascii_of_nat 10)
          (String (ascii_of_nat 194)
             (String (ascii_of_nat 160)
                ("March 31, 2025"
                 ++ String (ascii_of_nat 226)
                      (String (ascii_of_nat 128)
                         (String (ascii_of_nat 131) " "))))))
     = "March 31, 2025".
Proof.
  split.
  - apply (proj2 (proj2 (parse_deadline_trims "March 31, 2025"))).
    split; vm_compute; reflexivity.
  - vm_compute. reflexivity.
Defined.
Section CleanTextFacts.

Import Str.

Lemma text_of_others (l : list ascii) :
  text_of (map Other l) = string_of_list_ascii l.
Proof. induction l as [|c l IH]; [reflexivity|]. cbn. now rewrite IH. Qed.

Lemma string_of_list_nonempty (l : list ascii) :
  l <> [] -> string_of_list_ascii l <> ""%string.
Proof. destruct l; [congruence | discriminate]. Qed.

Lemma rev_nonempty {A : Type} (l : list A) : l <> [] -> rev l <> [].
Proof.
  intros H E. apply H. apply (f_equal (@rev A)) in E.
  now rewrite rev_involutive in E.
Qed.

Lemma split_aux_nil (cur : list ascii) :
  split_aux cur []
  = match cur with
    | [] => []
    | _ => [string_of_list_ascii (rev cur)]
    end.
Proof. now destruct cur. Qed.

Lemma split_aux_blank (cur : list ascii) (t : token) (rest : list token) :
  is_blank t = true ->
  split_aux cur (t :: rest) = split_aux cur [] ++ split_aux [] rest.
Proof. destruct t; [reflexivity .. | discriminate]. Qed.

(** The word in progress, once flushed, is a run of the tokens read. *)
Lemma flushed_run (total pre rest : list token) (cur : list ascii) :
  total = pre ++ map Other (rev cur) ++ rest ->
  Forall (fun w => w <> ""%string
                   /\ exists a b,
                        total = a ++ map Other (list_ascii_of_string w) ++ b)
         (split_aux cur []).
Proof.
  intros H. rewrite split_aux_nil. destruct cur as [|c cur]; [constructor|].
  constructor; [|constructor]. split.
  - apply string_of_list_nonempty, rev_nonempty. discriminate.
  - exists pre, rest. now rewrite list_ascii_of_string_of_list_ascii.
Qed.

(** Every word [split] returns is a run of tokens that are no blanks. *)
Lemma split_aux_runs (total l : list token) :
  forall pre cur,
    total = pre ++ map Other (rev cur) ++ l ->
    Forall (fun w => w <> ""%string
                     /\ exists a b,
                          total = a ++ map Other (list_ascii_of_string w) ++ b)
           (split_aux cur l).
Proof.
  induction l as [|t l IH]; intros pre cur H.
  - now apply (flushed_run total pre []).
  - destruct (is_blank t) eqn:E.
    + rewrite split_aux_blank by exact E. apply Forall_app. split.
      * now apply (flushed_run total pre (t :: l)).
      * apply (IH (pre ++ map Other (rev cur) ++ [t]) []).
        rewrite H. cbn [rev map app]. rewrite <- !app_assoc. reflexivity.
    + destruct t as [| | |c]; try discriminate E. cbn [split_aux].
      apply (IH pre (c :: cur)).
      rewrite H. cbn [rev]. rewrite map_app, <- app_assoc. reflexivity.
Qed.

Lemma split_words (s : string) : Forall is_word (split s).
Proof.
  eapply Forall_impl; [|exact (split_aux_runs (tokens s) (tokens s) [] [] eq_refl)].
  intros w (Hne & a & b & H). split; [exact Hne|]. unfold solid.
  apply tokens_infix in H.
  now rewrite text_of_others, string_of_list_ascii_of_string in H.
Qed.

Lemma solid_cons (c : ascii) (w : string) :
  solid (String c w) -> next (String c w) = Some (Other c, w) /\ solid w.
Proof.
  unfold solid. cbn [list_ascii_of_string map]. intros H.
  apply tokens_cons in H as (rest & En & H).
  pose proof (next_text _ _ _ En) as Et. cbn [token_text] in Et.
  injection Et as <-. now split.
Qed.

(** The blank [' '] is the last byte of no blank character of two or three
    bytes. *)
Lemma space2_blank (c : ascii) : space2 c " " = false.
Proof. unfold space2. destruct (N_of_ascii c =? 194)%N; reflexivity. Qed.

Lemma space3_blank_mid (c c3 : ascii) : space3 c " " c3 = false.
Proof.
  unfold space3.
  repeat match goal with
         | |- context [(N_of_ascii ?x =? ?k)%N] =>
             is_var x; destruct (N_of_ascii x =? k)%N
         end; reflexivity.
Qed.

Lemma space3_blank_last (c c2 : ascii) : space3 c c2 " " = false.
Proof.
  unfold space3.
  repeat match goal with
         | |- context [(N_of_ascii ?x =? ?k)%N] =>
             is_var x; destruct (N_of_ascii x =? k)%N
         end; reflexivity.
Qed.

(** A byte read as a token of its own is read so with a blank put after
    the word. *)
Lemma next_before_blank (c : ascii) (w x : string) :
  next (String c w) = Some (Other c, w) ->
  next (String c (w ++ String " " x))
  = Some (Other c, (w ++ String " " x)%string).
Proof.
  destruct w as [|c2 [|c3 w3]]; cbn [next append];
    destruct (space1 c); try discriminate.
  - intros _. rewrite space2_blank.
    destruct x as [|c3 x3]; [reflexivity|]. now rewrite space3_blank_mid.
  - destruct (space2 c c2); [discriminate|]. intros _.
    now rewrite space3_blank_last.
  - destruct (space2 c c2); [discriminate|].
    destruct (space3 c c2 c3); [discriminate|]. reflexivity.
Qed.

Lemma tokens_word_blank (w x : string) :
  solid w ->
  tokens (w ++ String " " x)
  = map Other (list_ascii_of_string w) ++ Blank1 " " :: tokens x.
Proof.
  induction w as [|c w IH]; intros H.
  - rewrite tokens_next. reflexivity.
  - apply solid_cons in H as [Hn Hw]. cbn [append]. rewrite tokens_next.
    rewrite (next_before_blank c w x Hn), (IH Hw). reflexivity.
Qed.

(** Reading a word, character by character, only grows the word in
    progress. *)
Lemma split_aux_others (lw : list ascii) (rest : list token) :
  forall cur,
    split_aux cur (map Other lw ++ rest) = split_aux (rev lw ++ cur) rest.
Proof.
  induction lw as [|c lw IH]; intros cur; [reflexivity|].
  cbn [map app split_aux rev]. rewrite IH, <- app_assoc. reflexivity.
Qed.

Lemma word_flush (w : string) :
  w <> ""%string -> split_aux (rev (list_ascii_of_string w)) [] = [w].
Proof.
  intros Hne. rewrite split_aux_nil.
  assert (list_ascii_of_string w <> []) as Hl
      by (destruct w; [congruence | discriminate]).
  apply rev_nonempty in Hl.
  destruct (rev (list_ascii_of_string w)) as [|a l] eqn:E; [congruence|].
  rewrite <- E, rev_involutive, string_of_list_ascii_of_string. reflexivity.
Qed.

(** Splitting the words joined by one blank gives the words back. *)
Lemma split_join (ws : list string) :
  Forall is_word ws -> split (join " " ws) = ws.
Proof.
  unfold split, join. induction 1 as [|w ws [Hne Hw] Hws IH]; [reflexivity|].
  destruct ws as [|w2 ws].
  - cbn [String.concat]. rewrite Hw.
    rewrite <- (app_nil_r (map Other _)), split_aux_others, app_nil_r.
    now apply word_flush.
  - change (String.concat " " (w :: w2 :: ws))
      with (w ++ String " " (String.concat " " (w2 :: ws)))%string.
    rewrite (tokens_word_blank _ _ Hw), split_aux_others, app_nil_r.
    rewrite split_aux_blank by reflexivity.
    rewrite (word_flush w Hne), IH. reflexivity.
Qed.

Lemma clean_text_join (text : string) :
  Run.clean_text text = join " " (split text).
Proof.
  unfold Run.clean_text. destruct (String.eqb_spec text ""); [now subst|reflexivity].
Qed.

Lemma split_blank (l : list token) :
  forallb is_blank l = true -> split_aux [] l = [].
Proof.
  induction l as [|t l IH]; [reflexivity|]. cbn [forallb]. intros H.
  apply andb_true_iff in H as [Ht H].
  rewrite split_aux_blank by exact Ht. now rewrite IH.
Qed.

(** With a word in progress, [split] returns at least that word. *)
Lemma split_aux_nonempty (l : list token) :
  forall cur, cur <> [] -> split_aux cur l <> [].
Proof.
  induction l as [|t l IH]; intros cur H.
  - rewrite split_aux_nil. destruct cur; [congruence | discriminate].
  - destruct (is_blank t) eqn:E.
    + rewrite split_aux_blank, split_aux_nil by exact E.
      destruct cur; [congruence | discriminate].
    + destruct t as [| | |c]; try discriminate E. apply IH. discriminate.
Qed.

Lemma join_nonempty (w : string) (ws : list string) :
  w <> ""%string -> join " " (w :: ws) <> ""%string.
Proof.
  unfold join. destruct w as [|c w]; [congruence|]. intros _.
  destruct ws; cbn; discriminate.
Qed.

(** A text that is not empty and starts with no blank cleans to a text
    that is not empty. *)
Lemma trimmed_clean_nonempty (t : string) :
  trimmed t -> t <> ""%string -> Run.clean_text t <> ""%string.
Proof.
  intros [H _] Hne. rewrite clean_text_join.
  pose proof (split_words t) as Hw. unfold split in *.
  destruct (tokens t) as [|t0 l] eqn:E.
  - exfalso. apply Hne. now rewrite <- (text_of_tokens t), E.
  - cbn [edge_ok] in H. destruct t0 as [| | |c]; try discriminate H.
    cbn [split_aux] in *.
    pose proof (split_aux_nonempty l [c]) as Hn.
    destruct (split_aux [c] l) as [|w ws];
      [exfalso; apply Hn; [discriminate | reflexivity]|].
    apply join_nonempty. inversion Hw as [|? ? [Hw1 _]]. exact Hw1.
Qed.

End CleanTextFacts.

(** X10.  [clean_text] keeps the words of a text and nothing else, with
    the blank characters of [str.split]: the ASCII ones and the others
    Unicode counts as white space, such as U+00A0 and U+2003.  The words
    of the result are the words of the input, cleaning a cleaned text
    changes nothing, every word is non-empty and has no blank character
    in it, and a text made of blank characters only cleans to the empty
    text. *)
Theorem clean_text_normalises :
  forall text : string,
    Str.split (Run.clean_text text) = Str.split text
    /\ Run.clean_text (Run.clean_text text) = Run.clean_text text
    /\ Forall is_word (Str.split text)
    /\ (forallb Str.is_blank (Str.tokens text) = true
        -> Run.clean_text text = "").
Proof.
  intros text.
  pose proof (split_words text) as Hw.
  assert (Str.split (Run.clean_text text) = Str.split text) as Hs
      by (rewrite clean_text_join; now apply split_join).
  split; [exact Hs|]. split; [|split; [exact Hw|]].
  - rewrite (clean_text_join (Run.clean_text text)), Hs.
    symmetry. apply clean_text_join.
  - intros H. rewrite clean_text_join. unfold Str.split.
    now rewrite split_blank.
Qed.

(** A title with a line break, a no-break space (U+00A0) and runs of
    blanks in it; a text of a blank, an ideographic space (U+3000) and a
    tab. *)
Lemma clean_text_normalises_witness :
  Run.clean_text
    (String (ascii_of_nat 10)
       ("  National"
        ++ String (ascii_of_nat 194)
             (String (ascii_of_nat 160) "  Overseas Scholarship ")))
  = "National Overseas Scholarship"
  /\ Run.clean_text
       (String " "
          (String (ascii_of_nat 227)
             (String (ascii_of_nat 128)
                (String (ascii_of_nat 128)
                   (String (ascii_of_nat 9) EmptyString)))))
     = "".
Proof.
  split.
  - vm_compute. reflexivity.
  - apply (proj2 (proj2 (proj2 (clean_text_normalises _)))). reflexivity.
Defined.

(** ** The pipeline: what each path does *)

Section PipelineFacts.

Import Run.

Lemma outcome_of_bind {A B : Type} (m : M A) (f : A -> M B) :
  outcome (bind m f)
  = match outcome m with inl e => inl e | inr a => outcome (f a) end.
Proof.
  destruct m as [tr [e|a]]; simpl; [reflexivity|]. now destruct (f a).
Qed.

(** A [try] whose handler only logs never lets an exception out. *)
Lemma try_except_log (m : M unit) (msg : exn -> string) :
  try_except m (fun e => logging_error (msg e))
  = (events m ++ match outcome m with
                 | inl e => [Log ERROR (msg e)]
                 | inr _ => []
                 end,
     inr tt).
Proof.
  destruct m as [tr [e|[]]]; simpl; [reflexivity | now rewrite app_nil_r].
Qed.

(** [send_email], case by case on what the mail client answers. *)
Lemma send_email_eq (w : world) (content : string) :
  send_email w content
  = match outlook_send w (recipient w) content with
    | inr _ =>
        ([SendEmail content; MailSend (recipient w) content;
          Log INFO ("Email sent successfully to " ++ recipient w)%string],
         inr true)
    | inl e =>
        ([SendEmail content; Log ERROR ("Error sending email: " ++ exn_str e)%string],
         inr false)
    end.
Proof.
  unfold send_email, recipient.
  destruct (getenv w "RECIPIENT_EMAIL") as [r|];
    unfold call; simpl;
    match goal with |- context [outlook_send w ?a ?b] =>
      destruct (outlook_send w a b) as [e|[]] end; reflexivity.
Qed.

Lemma process_with_gemini_eq (w : world) (l : list ScholarshipData) :
  process_with_gemini w l
  = match generate_content w l with
    | inr text => ([], inr text)
    | inl e =>
        ([Log ERROR ("Error processing with Gemini: " ++ exn_str e)%string],
         inr sentinel)
    end.
Proof.
  unfold process_with_gemini. rewrite try_except_log_default. unfold call. simpl.
  now destruct (generate_content w l).
Qed.

Lemma truthy_issue (w : world) (var : string) :
  (if Str.truthy (getenv w var) then []
   else [("Missing " ++ var ++ " in environment configuration")%string])
  = [] <-> Str.truthy (getenv w var) = true.
Proof. destruct (Str.truthy (getenv w var)); split; congruence. Qed.

Lemma validate_email_config_nil (w : world) :
  validate_email_config w = []
  <-> Str.truthy (getenv w "EMAIL_ADDRESS") = true
      /\ Str.truthy (getenv w "RECIPIENT_EMAIL") = true.
Proof.
  unfold validate_email_config. cbn [flat_map]. rewrite app_nil_r.
  split.
  - intros H. apply app_eq_nil in H as [H1 H2].
    split; now apply truthy_issue.
  - intros [H1 H2]. now rewrite H1, H2.
Qed.

(** [main] when the check of the mail settings finds something. *)
Lemma main_with_email_issues (w : world) :
  validate_email_config w <> [] ->
  main w = (map (Log ERROR) (validate_email_config w), inr tt).
Proof.
  intros Hne. unfold main. rewrite try_except_log.
  destruct (validate_email_config w) as [|i issues]; [congruence|].
  unfold logging_error. rewrite for_each_emit. cbn [events outcome fst snd].
  now rewrite app_nil_r.
Qed.

Lemma email_issues_found (w : world) :
  Str.truthy (getenv w "EMAIL_ADDRESS") = false
  \/ Str.truthy (getenv w "RECIPIENT_EMAIL") = false ->
  validate_email_config w <> [].
Proof.
  intros H E. apply validate_email_config_nil in E as [E1 E2].
  destruct H as [H|H]; congruence.
Qed.

(** The part of [main] that follows the two checks on its inputs. *)
Lemma main_after_validation (w : world) :
  validate_email_config w = [] ->
  main w
  = (map (Log WARNING) (test_scholarship_data w)
     ++ events (process_with_gemini w (get_available_scholarships w))
     ++ match outcome (process_with_gemini w (get_available_scholarships w)) with
        | inr content =>
            if String.eqb content "" then [Log ERROR "Failed to generate content"]
            else
              events (send_email w (enhance_scholarship_content content))
              ++ [match outcome (send_email w (enhance_scholarship_content content)) with
                  | inr true =>
                      Log INFO "Successfully processed and sent scholarship updates"
                  | _ => Log ERROR "Failed to send email"
                  end]
        | inl e => [Log ERROR ("Error in main: " ++ exn_str e)%string]
        end,
     inr tt).
Proof.
  intros Hv. unfold main. rewrite try_except_log, Hv.
  unfold logging_warning. rewrite for_each_emit.
  generalize (map (Log WARNING) (test_scholarship_data w)). intros warnings.
  pose proof (catalog_nonempty w) as Hc.
  destruct (get_available_scholarships w) as [|s0 l] eqn:Ecat; [contradiction|].
  rewrite process_with_gemini_eq.
  destruct (generate_content w (s0 :: l)) as [e|content];
    cbn [bind outcome events fst snd].
  - change (String.eqb sentinel "") with false. cbv iota.
    rewrite !send_email_eq.
    generalize (enhance_scholarship_content sentinel). intros enhanced.
    destruct (outlook_send w (recipient w) enhanced) as [e'|u];
      cbn; rewrite ?app_nil_r, <- ?app_assoc; reflexivity.
  - destruct (String.eqb content "") eqn:Eempty.
    + cbn. rewrite ?app_nil_r. reflexivity.
    + rewrite !send_email_eq.
      generalize (enhance_scholarship_content content). intros enhanced.
      destruct (outlook_send w (recipient w) enhanced) as [e'|u];
        cbn; rewrite ?app_nil_r, <- ?app_assoc; reflexivity.
Qed.

End PipelineFacts.

(** X11.  [send_email] never raises; it returns [True] exactly when the
    mail client accepted the message, and that is exactly when a mail
    went out. *)
Theorem send_email_reports_delivery :
  forall (w : Run.world) (content : string),
    (exists sent, Run.outcome (Run.send_email w content) = inr sent)
    /\ (Run.outcome (Run.send_email w content) = inr true
        <-> exists u, Run.outlook_send w (recipient w) content = inr u)
    /\ (In (Run.MailSend (recipient w) content) (Run.events (Run.send_email w content))
        <-> Run.outcome (Run.send_email w content) = inr true).
Proof.
  intros w content. rewrite send_email_eq.
  destruct (Run.outlook_send w (recipient w) content) as [e|u]; cbn.
  - split; [now exists false|]. split.
    + split; [discriminate | intros [u H]; discriminate H].
    + split; [intros [H|[H|[]]]; discriminate H | discriminate].
  - split; [now exists true|]. split.
    + split; [now exists u | reflexivity].
    + split; [reflexivity | intros _; right; now left].
Qed.

(** A mail client that is not installed. *)
Lemma send_email_reports_delivery_witness :
  let w := Run.mkWorld env_ok (Clock.mkDatetime 2025 1 8 12 0 0 0)
             (fun _ => inr "") (fun _ => inr (fun _ => inr []))
             (fun _ _ => inr (Run.DataDict None)) (fun _ => inr 200)
             (fun _ => true) (fun _ => inr "<p>digest</p>")
             (fun _ _ => inl (Run.mkExn "com_error" "Invalid class string")) in
  Run.outcome (Run.send_email w "<p>digest</p>") <> inr true.
Proof.
  intros w H.
  apply (proj1 (proj2 (send_email_reports_delivery w "<p>digest</p>"))) in H.
  destruct H as [u H]. discriminate H.
Defined.

(** X13.  When [EMAIL_ADDRESS] or [RECIPIENT_EMAIL] is unset or empty,
    [main] logs one error per missing variable and does nothing else: no
    formatting, no mail. *)
Theorem main_stops_on_email_issues :
  forall w : Run.world,
    Str.truthy (Run.getenv w "EMAIL_ADDRESS") = false
    \/ Str.truthy (Run.getenv w "RECIPIENT_EMAIL") = false ->
    Run.validate_email_config w <> []
    /\ Run.main w
       = (map (Run.Log Run.ERROR) (Run.validate_email_config w), inr tt).
Proof.
  intros w H. pose proof (email_issues_found w H) as Hne.
  split; [exact Hne | now apply main_with_email_issues].
Qed.

(** [main] called with the recipient unset. *)
Lemma main_stops_on_email_issues_witness :
  let env := fun k => if String.eqb k "RECIPIENT_EMAIL" then None else env_ok k in
  Run.main (quiet_world env (inr "<p>digest</p>"))
  = ([Run.Log Run.ERROR "Missing RECIPIENT_EMAIL in environment configuration"],
     inr tt).
Proof.
  intros env.
  rewrite (proj2 (main_stops_on_email_issues
                    (quiet_world env (inr "<p>digest</p>"))
                    (or_intror eq_refl))).
  reflexivity.
Defined.

(** X14.  When the formatter returns the empty text, [main] logs the data
    warnings and "Failed to generate content", and does not enter
    [send_email]. *)
Theorem main_stops_on_empty_content :
  forall w : Run.world,
    Run.validate_email_config w = [] ->
    Run.generate_content w (Run.get_available_scholarships w) = inr "" ->
    Run.main w
    = (map (Run.Log Run.WARNING) (Run.test_scholarship_data w)
       ++ [Run.Log Run.ERROR "Failed to generate content"],
       inr tt).
Proof.
  intros w Hv Hg. rewrite (main_after_validation w Hv), process_with_gemini_eq, Hg.
  reflexivity.
Qed.

(** The quiet world with a formatter that answers nothing. *)
Lemma main_stops_on_empty_content_witness :
  existsb is_delivery (Run.events (Run.main (quiet_world env_ok (inr "")))) = false.
Proof.
  rewrite (main_stops_on_empty_content (quiet_world env_ok (inr "")) eq_refl eq_refl).
  vm_compute. reflexivity.
Defined.

(** X15.  When the formatter returns a text that is not empty, [main]
    hands the enhanced text to [send_email] and closes the log with its
    verdict: the success line when [send_email] returned [True],
    "Failed to send email" otherwise. *)
Theorem main_reports_delivery :
  forall (w : Run.world) (content : string),
    Run.validate_email_config w = [] ->
    Run.generate_content w (Run.get_available_scholarships w) = inr content ->
    content <> "" ->
    Run.main w
    = (map (Run.Log Run.WARNING) (Run.test_scholarship_data w)
       ++ Run.events (Run.send_email w (Run.enhance_scholarship_content content))
       ++ [if match Run.outlook_send w (recipient w)
                     (Run.enhance_scholarship_content content) with
              | inr _ => true
              | inl _ => false
              end
           then Run.Log Run.INFO "Successfully processed and sent scholarship updates"
           else Run.Log Run.ERROR "Failed to send email"],
       inr tt).
Proof.
  intros w content Hv Hg Hne.
  rewrite (main_after_validation w Hv), process_with_gemini_eq, Hg.
  cbn [Run.events Run.outcome fst snd app].
  apply String.eqb_neq in Hne. rewrite Hne. rewrite !send_email_eq.
  now destruct (Run.outlook_send w (recipient w)
                  (Run.enhance_scholarship_content content)).
Qed.

(** The quiet world with a formatter that answers a digest. *)
Lemma main_reports_delivery_witness :
  last (Run.events (Run.main (quiet_world env_ok (inr "<p>digest</p>"))))
       (Run.Log Run.ERROR "")
  = Run.Log Run.INFO "Successfully processed and sent scholarship updates".
Proof.
  rewrite (main_reports_delivery (quiet_world env_ok (inr "<p>digest</p>"))
             "<p>digest</p>" eq_refl eq_refl ltac:(discriminate)).
  vm_compute. reflexivity.
Defined.

Section MorePipelineFacts.

Import Run.

Lemma bind_returned {B : Type} (m : M B) : bind (([], inr tt) : M unit) (fun _ => m) = m.
Proof. simpl. now destruct m. Qed.

Lemma process_scholarships_eq (w : world) :
  process_scholarships w
  = (events (process_with_gemini w (get_available_scholarships w))
     ++ match outcome (process_with_gemini w (get_available_scholarships w)) with
        | inr content =>
            if String.eqb content "" then [Log ERROR "No content generated for email"]
            else events (send_email w content)
                 ++ [Log INFO "Successfully sent scholarship update email"]
        | inl e => [Log ERROR ("Error in processing scholarships: " ++ exn_str e)%string]
        end,
     inr tt).
Proof.
  unfold process_scholarships. rewrite try_except_log.
  rewrite process_with_gemini_eq.
  destruct (generate_content w (get_available_scholarships w)) as [e|content];
    cbn [bind outcome events fst snd].
  - change (String.eqb sentinel "") with false. cbv iota.
    rewrite !send_email_eq.
    destruct (outlook_send w (recipient w) sentinel) as [e'|u];
      cbn; rewrite ?app_nil_r, <- ?app_assoc; reflexivity.
  - destruct (String.eqb content "") eqn:Eempty.
    + cbn. rewrite ?app_nil_r. reflexivity.
    + rewrite !send_email_eq.
      destruct (outlook_send w (recipient w) content) as [e'|u];
        cbn; rewrite ?app_nil_r, <- ?app_assoc; reflexivity.
Qed.

Lemma prefix_app (n rest : string) : String.prefix n (n ++ rest) = true.
Proof.
  induction n as [|a n IH]; [now destruct rest|]. cbn.
  destruct (ascii_dec a a); [exact IH | contradiction].
Qed.

Lemma contains_prefix (n s : string) :
  String.prefix n s = true -> Str.contains n s = true.
Proof. intros H. destruct s; cbn [Str.contains]; now rewrite H. Qed.

Lemma contains_skip (n a s : string) :
  Str.contains n s = true -> Str.contains n (a ++ s) = true.
Proof.
  intros H. induction a as [|c a IH]; [exact H|].
  cbn [String.append Str.contains]. rewrite IH. apply orb_true_r.
Qed.

Lemma filter_delivery_logs (lvl : level) (msgs : list string) :
  filter is_delivery (map (Log lvl) msgs) = [].
Proof. induction msgs as [|m msgs IH]; [reflexivity | exact IH]. Qed.

End MorePipelineFacts.

(** X16.  Loading the module succeeds exactly when the four variables are
    set and not empty.  Then the check [main] makes of its own passes and
    the script is just [main]; otherwise the script ends in [ValueError]
    with nothing logged or sent, also when a variable is set but empty. *)
Theorem module_init_gate :
  forall w : Run.world,
    if forallb (fun k => Str.truthy (Run.getenv w k)) required_vars
    then Run.module_init w = ([], inr tt)
         /\ Run.validate_email_config w = []
         /\ Run.script w = Run.main w
    else exists msg,
           Run.module_init w = ([], inl (Run.ValueError msg))
           /\ Run.script w = ([], inl (Run.ValueError msg)).
Proof.
  intros w. unfold required_vars. cbn [forallb].
  unfold Run.script, Run.module_init. cbn [forallb].
  destruct (Str.truthy (Run.getenv w "GOOGLE_API_KEY")) eqn:Eg; cbn [negb andb];
    [|eexists; split; reflexivity].
  destruct (Str.truthy (Run.getenv w "EMAIL_ADDRESS")) eqn:Ea; cbn [negb andb];
    [|eexists; split; reflexivity].
  destruct (Str.truthy (Run.getenv w "EMAIL_PASSWORD")) eqn:Ep; cbn [negb andb];
    [|eexists; split; reflexivity].
  destruct (Str.truthy (Run.getenv w "RECIPIENT_EMAIL")) eqn:Er; cbn [negb andb];
    [|eexists; split; reflexivity].
  split; [reflexivity|]. split.
  - apply validate_email_config_nil. now split.
  - apply bind_returned.
Qed.

(** X17.  [enhance_scholarship_content] keeps the content as it is, inside
    what it returns, and never returns the empty text. *)
Theorem enhance_keeps_content :
  forall content : string,
    Str.contains content (Run.enhance_scholarship_content content) = true
    /\ Run.enhance_scholarship_content content <> "".
Proof.
  intros content. split.
  - unfold Run.enhance_scholarship_content.
    apply contains_skip, contains_skip, contains_prefix, prefix_app.
  - discriminate.
Qed.

(** X18.  What [test_scholarship_data] finds never changes what is mailed:
    two worlds that differ only in how the URL checks and the deadline
    parsing answer hand the same things to the mail client. *)
Theorem data_issues_do_not_affect_delivery :
  forall w1 w2 : Run.world,
    Run.getenv w1 = Run.getenv w2 ->
    Run.clock w1 = Run.clock w2 ->
    Run.generate_content w1 = Run.generate_content w2 ->
    Run.outlook_send w1 = Run.outlook_send w2 ->
    filter is_delivery (Run.events (Run.main w1))
    = filter is_delivery (Run.events (Run.main w2)).
Proof.
  intros w1 w2 Henv Hclock Hgen Hmail.
  assert (Run.validate_email_config w1 = Run.validate_email_config w2) as Hv
      by (unfold Run.validate_email_config; now rewrite Henv).
  destruct (Run.validate_email_config w1) as [|i issues] eqn:E1.
  - symmetry in Hv.
    rewrite (main_after_validation w1 E1), (main_after_validation w2 Hv).
    cbn [Run.events fst]. rewrite !filter_app, !filter_delivery_logs.
    rewrite !process_with_gemini_eq.
    unfold Run.get_available_scholarships. rewrite Hclock, Hgen.
    destruct (Run.generate_content w2 (Run.AVAILABLE_SCHOLARSHIPS (Run.clock w2)))
      as [e|content]; cbn [Run.events Run.outcome fst snd].
    + rewrite !send_email_eq. unfold recipient. rewrite Henv, Hmail. reflexivity.
    + destruct (String.eqb content ""); [reflexivity|].
      rewrite !send_email_eq. unfold recipient. rewrite Henv, Hmail. reflexivity.
  - assert (Str.truthy (Run.getenv w1 "EMAIL_ADDRESS") = false
            \/ Str.truthy (Run.getenv w1 "RECIPIENT_EMAIL") = false) as H1.
    { destruct (Str.truthy (Run.getenv w1 "EMAIL_ADDRESS")) eqn:Ea; [|now left].
      destruct (Str.truthy (Run.getenv w1 "RECIPIENT_EMAIL")) eqn:Er; [|now right].
      assert (Run.validate_email_config w1 = []) as C
          by (apply validate_email_config_nil; now split).
      congruence. }
    assert (Str.truthy (Run.getenv w2 "EMAIL_ADDRESS") = false
            \/ Str.truthy (Run.getenv w2 "RECIPIENT_EMAIL") = false) as H2
        by (now rewrite <- Henv).
    rewrite (main_with_email_issues w1 (email_issues_found w1 H1)),
            (main_with_email_issues w2 (email_issues_found w2 H2)).
    cbn [Run.events fst]. now rewrite !filter_delivery_logs.
Qed.

(** The quiet world against one whose URL checks all time out. *)
Lemma data_issues_do_not_affect_delivery_witness :
  let w1 := quiet_world env_ok (inr "<p>digest</p>") in
  let w2 := Run.mkWorld env_ok (Clock.mkDatetime 2025 1 8 12 0 0 0)
              (fun _ => inr "") (fun _ => inr (fun _ => inr []))
              (fun _ _ => inr (Run.DataDict None))
              (fun _ => inl (Run.mkExn "Timeout" "timed out"))
              (fun _ => false) (fun _ => inr "<p>digest</p>")
              (fun _ _ => inr tt) in
  filter is_delivery (Run.events (Run.main w1))
  = filter is_delivery (Run.events (Run.main w2)).
Proof.
  intros w1 w2.
  exact (data_issues_do_not_affect_delivery w1 w2 eq_refl eq_refl eq_refl eq_refl).
Defined.

(** X19.  [process_scholarships] mails the formatter's text as it is and
    does not look at what [send_email] returns: when the mail client
    refuses the message, the error line is followed by the success
    line. *)
Theorem process_scholarships_ignores_send_result :
  forall (w : Run.world) (content : string) (e : Run.exn),
    Run.generate_content w (Run.get_available_scholarships w) = inr content ->
    content <> "" ->
    Run.outlook_send w (recipient w) content = inl e ->
    Run.process_scholarships w
    = ([Run.SendEmail content;
        Run.Log Run.ERROR ("Error sending email: " ++ Run.exn_str e)%string;
        Run.Log Run.INFO "Successfully sent scholarship update email"],
       inr tt).
Proof.
  intros w content e Hg Hne Hmail.
  rewrite process_scholarships_eq, process_with_gemini_eq, Hg.
  cbn [Run.events Run.outcome fst snd app].
  apply String.eqb_neq in Hne. rewrite Hne, send_email_eq, Hmail. reflexivity.
Qed.

(** A working formatter and a mail client that is not installed. *)
Lemma process_scholarships_ignores_send_result_witness :
  let w := Run.mkWorld env_ok (Clock.mkDatetime 2025 1 8 12 0 0 0)
             (fun _ => inr "") (fun _ => inr (fun _ => inr []))
             (fun _ _ => inr (Run.DataDict None)) (fun _ => inr 200)
             (fun _ => true) (fun _ => inr "<p>digest</p>")
             (fun _ _ => inl (Run.mkExn "com_error" "Invalid class string")) in
  Run.events (Run.process_scholarships w)
  = [Run.SendEmail "<p>digest</p>";
     Run.Log Run.ERROR "Error sending email: Invalid class string";
     Run.Log Run.INFO "Successfully sent scholarship update email"].
Proof.
  intros w.
  rewrite (process_scholarships_ignores_send_result w "<p>digest</p>"
             (Run.mkExn "com_error" "Invalid class string")
             eq_refl ltac:(discriminate) eq_refl).
  reflexivity.
Defined.

(** ** The fetch functions *)

Section FetchRecords.

Import Run.

Lemma buddy4study_items_good (w : world) (cfg : config) (url : string)
    (items : list (list (string * string))) :
  cfg_url cfg = Some url ->
  buddy4study_items w cfg (map ItemDict items)
  = ([], inr (map (buddy4study_record w url) items)).
Proof.
  intros Hu. induction items as [|item items IH]; [reflexivity|].
  cbn [map buddy4study_items]. rewrite Hu, IH. reflexivity.
Qed.

Lemma buddy4study_items_bad (w : world) (cfg : config) (url type_name : string)
    (pre : list (list (string * string))) (rest : list json_item) :
  cfg_url cfg = Some url ->
  buddy4study_items w cfg (map ItemDict pre ++ ItemOther type_name :: rest)
  = ([], inl (no_attribute_get type_name)).
Proof.
  intros Hu. induction pre as [|item pre IH]; [reflexivity|].
  cbn [map app buddy4study_items]. rewrite Hu, IH. reflexivity.
Qed.

Lemma extract_text_trimmed (item : element) (selector t : string) :
  extract_text item selector = Some t -> trimmed t.
Proof.
  unfold extract_text. destruct (item selector) as [e|[text|]]; try discriminate.
  intros H. injection H as <-. apply strip_trimmed.
Qed.

End FetchRecords.

Section ScrapeFacts.

Import Run.

Lemma bind_ret {A B : Type} (a : A) (f : A -> M B) : bind (ret a) f = f a.
Proof. simpl. now destruct (f a). Qed.

Lemma bind_call_inr {A B : Type} (a : A) (f : A -> M B) :
  bind (call (inr a)) f = f a.
Proof. apply bind_ret. Qed.

Lemma scrape_item_records (w : world) (source_name : string) (cfg : config)
    (selectors : list (string * string)) (item : element)
    (l : list ScholarshipData) :
  outcome (scrape_item w source_name cfg selectors item) = inr l ->
  Forall (well_scraped source_name cfg) l.
Proof.
  unfold scrape_item.
  destruct (dict_find "title" selectors) as [st|]; [|discriminate].
  destruct (dict_find "description" selectors) as [sd|]; [|discriminate].
  destruct (dict_find "deadline" selectors) as [sl|]; [|discriminate].
  destruct (dict_find "amount" selectors) as [sa|]; [|discriminate].
  cbn [subscript bind ret app].
  destruct (extract_text item st) as [t|] eqn:Et;
    [|cbn; intros H; injection H as <-; constructor].
  destruct (extract_text item sd) as [d|] eqn:Ed;
    [|cbn; intros H; injection H as <-; constructor].
  destruct (String.eqb_spec t ""); cbn [negb andb];
    [cbn; intros H; injection H as <-; constructor|].
  destruct (String.eqb_spec d ""); cbn [negb andb];
    [cbn; intros H; injection H as <-; constructor|].
  destruct (cfg_url cfg) as [u|] eqn:Eu; [|discriminate].
  cbn. intros H. injection H as <-. constructor; [|constructor].
  unfold well_scraped. cbn.
  split; [reflexivity|]. split; [exact Eu|].
  split; [apply trimmed_clean_nonempty; eauto using extract_text_trimmed|].
  split; [apply trimmed_clean_nonempty; eauto using extract_text_trimmed|].
  split.
  - destruct (extract_text item sa) as [a|] eqn:Ea; [|discriminate].
    destruct (String.eqb_spec a ""); [discriminate|].
    intros H. injection H as H.
    now apply (trimmed_clean_nonempty a (extract_text_trimmed _ _ _ Ea)).
  - destruct (extract_text item sl) as [dl|] eqn:El; [|discriminate].
    destruct (String.eqb_spec dl ""); [discriminate|].
    intros H. injection H as H. unfold parse_deadline in H.
    rewrite (strip_fixed dl (extract_text_trimmed _ _ _ El)) in H. contradiction.
Qed.

Lemma scrape_items_records (w : world) (source_name : string) (cfg : config)
    (selectors : list (string * string)) (items : list element) :
  forall l,
    outcome (scrape_items w source_name cfg selectors items) = inr l ->
    Forall (well_scraped source_name cfg) l.
Proof.
  induction items as [|item items IH]; intros l.
  - cbn. intros H. injection H as <-. constructor.
  - cbn [scrape_items]. rewrite outcome_of_bind.
    destruct (outcome (scrape_item w source_name cfg selectors item))
      as [e|found] eqn:Ef; [discriminate|].
    rewrite outcome_of_bind.
    destruct (outcome (scrape_items w source_name cfg selectors items))
      as [e|more] eqn:Em; [discriminate|].
    cbn. intros H. injection H as <-. apply Forall_app. split.
    + now apply (scrape_item_records w source_name cfg selectors item).
    + now apply IH.
Qed.

End ScrapeFacts.

(** X20.  With the three keys in the configuration and an API answer
    whose ['scholarships'] is a list of objects, the Buddy4Study fetch
    returns one record per object, in order, logs nothing, and fills a
    missing field with the empty text (the apply URL with the configured
    one).  One element that is not an object discards the whole list,
    the records of the objects before it included: the fetch returns no
    record and logs one error, which names the type of that element. *)
Theorem buddy4study_all_or_nothing :
  forall (w : Run.world) (cfg : Run.config) (api_url url : string)
         (params : list (string * list string)),
    Run.cfg_api_url cfg = Some api_url ->
    Run.cfg_params cfg = Some params ->
    Run.cfg_url cfg = Some url ->
    (forall items,
        Run.http_post_json w api_url params
        = inr (Run.DataDict (Some (map Run.ItemDict items))) ->
        Run.fetch_buddy4study_scholarships w cfg
        = ([], inr (map (buddy4study_record w url) items)))
    /\ (forall pre type_name rest,
           Run.http_post_json w api_url params
           = inr (Run.DataDict
                    (Some (map Run.ItemDict pre
                           ++ Run.ItemOther type_name :: rest))) ->
           Run.fetch_buddy4study_scholarships w cfg
           = ([Run.Log Run.ERROR
                 ("Error fetching from Buddy4Study API: '" ++ type_name
                  ++ "' object has no attribute 'get'")%string],
              inr [])).
Proof.
  intros w cfg api_url url params Ha Hp Hu. split.
  - intros items Hpost.
    unfold Run.fetch_buddy4study_scholarships, Run.fetch_buddy4study_body.
    rewrite Ha, Hp. cbn [Run.subscript Run.bind Run.ret app Run.call].
    rewrite Hpost. cbn [Run.bind Run.ret app].
    now rewrite (buddy4study_items_good w cfg url items Hu).
  - intros pre type_name rest Hpost.
    unfold Run.fetch_buddy4study_scholarships, Run.fetch_buddy4study_body.
    rewrite Ha, Hp. cbn [Run.subscript Run.bind Run.ret app Run.call].
    rewrite Hpost. cbn [Run.bind Run.ret app].
    now rewrite (buddy4study_items_bad w cfg url type_name pre rest Hu).
Qed.

(** An answer with two objects, the second without a title, and the same
    answer with a number between them. *)
Lemma buddy4study_all_or_nothing_witness :
  let answer items :=
    Run.mkWorld env_ok (Clock.mkDatetime 2025 1 8 12 0 0 0)
      (fun _ => inr "") (fun _ => inr (fun _ => inr []))
      (fun _ _ => inr (Run.DataDict (Some items))) (fun _ => inr 200)
      (fun _ => true) (fun _ => inr "") (fun _ _ => inr tt) in
  let a := [("title", "Merit Award"); ("apply_url", "https://a.example/apply")] in
  let b := [("description", "No title given")] in
  option_map (map title)
    (match Run.outcome (Run.fetch_buddy4study_scholarships
                          (answer [Run.ItemDict a; Run.ItemDict b])
                          buddy4study_config) with
     | inr l => Some l
     | inl _ => None
     end)
  = Some ["Merit Award"; ""]
  /\ Run.fetch_buddy4study_scholarships
       (answer [Run.ItemDict a; Run.ItemOther "int"; Run.ItemDict b])
       buddy4study_config
     = ([Run.Log Run.ERROR
           "Error fetching from Buddy4Study API: 'int' object has no attribute 'get'"],
        inr []).
Proof.
  intros answer a b. split.
  - rewrite (proj1 (buddy4study_all_or_nothing
                      (answer [Run.ItemDict a; Run.ItemDict b])
                      buddy4study_config _ _ _ eq_refl eq_refl eq_refl)
               [a; b] eq_refl).
    reflexivity.
  - rewrite (proj2 (buddy4study_all_or_nothing
                      (answer [Run.ItemDict a; Run.ItemOther "int"; Run.ItemDict b])
                      buddy4study_config _ _ _ eq_refl eq_refl eq_refl)
               [a] "int" [Run.ItemDict b] eq_refl).
    reflexivity.
Defined.

(** X21.  For the source named "Buddy4Study", [fetch_scholarship_data]
    returns what [fetch_buddy4study_scholarships] returns and adds one INFO
    line with the count; a failure of the API is therefore logged as an
    error and then as "Successfully fetched 0 scholarships". *)
Theorem buddy4study_source_delegates :
  forall (w : Run.world) (cfg : Run.config),
    exists l,
      Run.outcome (Run.fetch_buddy4study_scholarships w cfg) = inr l
      /\ Run.fetch_scholarship_data w "Buddy4Study" cfg
         = (Run.events (Run.fetch_buddy4study_scholarships w cfg)
            ++ [Run.Log Run.INFO
                  ("Successfully fetched " ++ Str.of_nat (List.length l)
                   ++ " scholarships from Buddy4Study")%string],
            inr l).
Proof.
  intros w cfg.
  unfold Run.fetch_scholarship_data, Run.fetch_scholarship_data_body.
  change (String.eqb "Buddy4Study" "Buddy4Study") with true. cbv iota.
  unfold Run.fetch_buddy4study_scholarships.
  rewrite (try_except_log_default (Run.fetch_buddy4study_body w cfg)).
  rewrite fetch_buddy4study_body_silent.
  destruct (Run.outcome (Run.fetch_buddy4study_body w cfg)) as [e|l].
  - exists []. split; reflexivity.
  - exists l. split; [reflexivity|]. cbn. rewrite ?app_nil_r. reflexivity.
Qed.

(** X22.  Every record [fetch_scholarship_data] returns for a scraped
    source carries that source's name and the configured URL, a title and
    a description that are not empty, and an amount and a deadline that
    are absent rather than empty. *)
Theorem scraped_records_are_filled :
  forall (w : Run.world) (source_name : string) (cfg : Run.config)
         (l : list ScholarshipData),
    source_name <> "Buddy4Study" ->
    Run.outcome (Run.fetch_scholarship_data w source_name cfg) = inr l ->
    Forall (well_scraped source_name cfg) l.
Proof.
  intros w source_name cfg l Hsrc.
  unfold Run.fetch_scholarship_data. rewrite try_except_log_default.
  destruct (Run.outcome (Run.fetch_scholarship_data_body w source_name cfg))
    as [e|l'] eqn:Eb.
  - cbn. intros H. injection H as <-. constructor.
  - cbn. intros H. injection H as <-.
    unfold Run.fetch_scholarship_data_body in Eb.
    apply String.eqb_neq in Hsrc. rewrite Hsrc in Eb.
    rewrite outcome_of_bind in Eb.
    match type of Eb with
    | match Run.outcome ?m with _ => _ end = _ =>
        destruct (Run.outcome m) as [e|scholarships] eqn:Em; [discriminate Eb|]
    end.
    cbv beta in Eb. rewrite outcome_of_bind in Eb. cbn in Eb. injection Eb as <-.
    revert Em. clear.
    destruct (Run.cfg_url cfg) as [u|]; [|discriminate].
    cbn [Run.subscript]. rewrite bind_ret.
    destruct (Run.http_get w u) as [e|text]; [discriminate|].
    rewrite bind_call_inr.
    destruct (Run.beautiful_soup w text) as [e|soup]; [discriminate|].
    rewrite bind_call_inr.
    destruct (Run.cfg_selectors cfg) as [selectors|]; [|discriminate].
    cbn [Run.subscript]. rewrite bind_ret.
    destruct (Run.dict_find "scholarships" selectors) as [sel|]; [|discriminate].
    cbn [Run.subscript]. rewrite bind_ret.
    destruct (soup sel) as [e|items]; [discriminate|].
    rewrite bind_call_inr.
    apply scrape_items_records.
Qed.

Example aicte_config_listed :
  Run.dict_find "AICTE" Run.SCHOLARSHIP_SOURCES = Some aicte_config.
Proof. reflexivity. Qed.

(** A page with two elements: the one without a title is skipped, the
    other is cleaned. *)
Lemma scraped_records_are_filled_witness :
  exists s,
    Run.outcome (Run.fetch_scholarship_data page_world "AICTE" aicte_config)
    = inr [s]
    /\ title s = "Pragati Scholarship"
    /\ deadline s = None
    /\ well_scraped "AICTE" aicte_config s.
Proof.
  eexists. split; [vm_compute; reflexivity|].
  split; [reflexivity|]. split; [reflexivity|].
  pose proof (scraped_records_are_filled page_world "AICTE" aicte_config _
                ltac:(discriminate) eq_refl) as H.
  now inversion H.
Defined.

(** X23.  A configuration without the key a fetch reads first is caught
    like any other failure: the function returns the empty list and logs
    the missing key, without the world being asked anything. *)
Theorem missing_config_key_is_logged :
  forall (w : Run.world) (source_name : string) (cfg : Run.config),
    (Run.cfg_api_url cfg = None ->
     Run.fetch_buddy4study_scholarships w cfg
     = ([Run.Log Run.ERROR "Error fetching from Buddy4Study API: 'api_url'"],
        inr []))
    /\ (source_name <> "Buddy4Study" ->
        Run.cfg_url cfg = None ->
        Run.fetch_scholarship_data w source_name cfg
        = ([Run.Log Run.ERROR
              ("Error fetching data from " ++ source_name ++ ": 'url'")%string],
           inr [])).
Proof.
  intros w source_name cfg. split.
  - intros H. unfold Run.fetch_buddy4study_scholarships, Run.fetch_buddy4study_body.
    rewrite H. reflexivity.
  - intros Hsrc H. apply String.eqb_neq in Hsrc.
    unfold Run.fetch_scholarship_data, Run.fetch_scholarship_data_body.
    rewrite Hsrc, H. reflexivity.
Qed.

(** The UGC source with an empty configuration. *)
Lemma missing_config_key_is_logged_witness :
  Run.fetch_scholarship_data page_world "UGC Scholarships"
    (Run.mkConfig None None None None)
  = ([Run.Log Run.ERROR "Error fetching data from UGC Scholarships: 'url'"],
     inr []).
Proof.
  apply (proj2 (missing_config_key_is_logged page_world "UGC Scholarships"
                  (Run.mkConfig None None None None)));
    [discriminate | reflexivity].
Defined.

(** X24.  Upsert and selection together: right after [add_scholarship]
    the record's row is returned by a selection, whatever the store held
    before, provided its stamp is dated on or after the day of
    [now - 7 days]. *)
Theorem upserted_record_is_offered :
  forall (s : ScholarshipData) (t : Database.table) (now dt : Clock.datetime),
    Clock.valid (Clock.minus_days 7 now) = true ->
    Clock.valid dt = true ->
    timestamp s = Clock.isoformat dt ->
    Clock.compare_date (Clock.minus_days 7 now) dt <> Gt ->
    exists t',
      Database.add_scholarship s t = Some t'
      /\ In (Database.row_of s) (Database.get_unsent_scholarships now t').
Proof.
  intros s t now dt Hc Hdt Hts Hd.
  eexists. split; [apply add_scholarship_eq|].
  apply (selected_by_date now dt _ (Database.row_of s) Hc Hdt Hts).
  split; [apply in_or_app; right; now left|]. now split.
Qed.

(** A catalog entry built and upserted at the moment of the selection. *)
Lemma upserted_record_is_offered_witness :
  let now := Clock.mkDatetime 2025 1 8 12 0 0 0 in
  let s := new_ScholarshipData now "Merit Award" "For rank holders" "UGC"
             "https://www.ugc.ac.in/" None None in
  exists t',
    Database.add_scholarship s [Database.set_sent (Database.row_of s)] = Some t'
    /\ In (Database.row_of s) (Database.get_unsent_scholarships now t').
Proof.
  intros now s.
  apply (upserted_record_is_offered s _ now now eq_refl eq_refl eq_refl).
  discriminate.
Defined.
